(** * turso-cli, [internal/cmd/db.go]: the database commands

    A shallow embedding of the [db create], [db replicate], [db destroy]
    and [db list] commands and of their helpers, followed by the
    properties of the region resolver, the name cache and the two
    orchestrators that the specification states about them.

    Strings are byte strings ([string] of [ascii]), as Go's are.  The
    commands run in a small state-and-error monad: the state is the local
    settings object together with a chronological trace of every call
    that leaves the function (remote API, HTTP, settings store, terminal);
    the three outcomes are a normal return, a returned [error] and a
    run-time panic. *)

From Stdlib Require Import ZArith NArith String Ascii List Bool Lia DecimalString Sorted.
From stdpp Require Import base option strings list gmap.

Set Warnings "-register-all".

Local Open Scope string_scope.
Local Open Scope list_scope.

(** ** Byte strings and [fmt.Sprintf] *)

Module Fmt.

(** The double-quote byte. *)
Definition dquote : ascii := ascii_of_nat 34.
Definition backslash : ascii := ascii_of_nat 92.

(** Go raw string literals are written here with ['] where the source has
    a double quote; [raw] puts the double quotes back. *)
Fixpoint raw (s : string) : string :=
  match s with
  | EmptyString => EmptyString
  | String c r => String (if Ascii.eqb c "'" then dquote else c) (raw r)
  end.

(** [fmt.Sprintf] for the verbs the file uses.  Every argument is passed
    already rendered ([%s] of a string, [%w] of an error's message, [%d]
    of a number's decimal form), so each verb splices the next argument;
    a verb without argument prints Go's [%!v(MISSING)] marker. *)
Definition is_verb (c : ascii) : bool :=
  Ascii.eqb c "s" || Ascii.eqb c "w" || Ascii.eqb c "d".

Fixpoint Sprintf (format : string) (args : list string) : string :=
  match format with
  | EmptyString => EmptyString
  | String c r =>
      if Ascii.eqb c "%" then
        match r with
        | String v r' =>
            if is_verb v then
              match args with
              | a :: args' => a +:+ Sprintf r' args'
              | [] => "%!" +:+ String v "(MISSING)" +:+ Sprintf r' []
              end
            else String c (String v (Sprintf r' args))
        | EmptyString => "%!(NOVERB)"
        end
      else String c (Sprintf r args)
  end.

End Fmt.

(** ** [encoding/json]: decoding into [interface{}]

    [json.Unmarshal(body, &result)] with [result] of type [interface{}]
    yields nil, a bool, a float64, a string, a [[]interface{}] or a
    [map[string]interface{}].  A number is kept as its literal, an object
    as its members in source order; [map_index] below reads a map the way
    Go does after decoding (the last of several equal keys wins).  As the
    decoder does, a string literal is coerced to well-formed UTF-8 (each
    byte that begins no well-formed sequence becomes U+FFFD), a number
    outside the range of a float64 is an error, and so is nesting deeper
    than 10000. *)

Module Json.

Inductive value : Type :=
| VNil
| VBool (b : bool)
| VNum (lit : string)
| VStr (s : string)
| VArr (elems : list value)
| VMap (members : list (string * value)).

Inductive token : Type :=
| TLBrace | TRBrace | TLBracket | TRBracket | TColon | TComma
| TString (s : string)
| TNumber (lit : string)
| TTrue | TFalse | TNull.

(** A string literal under construction: bytes (those of the input, and
    those the one-letter escapes stand for) and the 16-bit code units of
    [\uXXXX] escapes. *)
Inductive item : Type :=
| IByte (b : ascii)
| IUnit (u : N).

Definition byte_of_N (n : N) : ascii := ascii_of_N n.

Definition between (lo hi : nat) (c : ascii) : bool :=
  (lo <=? nat_of_ascii c)%nat && (nat_of_ascii c <=? hi)%nat.

(** UTF-8 encoding of a code point (at most 0x10FFFF). *)
Definition utf8 (n : N) : string :=
  if (n <? 128)%N then String (byte_of_N n) ""
  else if (n <? 2048)%N then
    String (byte_of_N (192 + n / 64)) (String (byte_of_N (128 + n mod 64)) "")
  else if (n <? 65536)%N then
    String (byte_of_N (224 + n / 4096))
      (String (byte_of_N (128 + (n / 64) mod 64))
         (String (byte_of_N (128 + n mod 64)) ""))
  else
    String (byte_of_N (240 + n / 262144))
      (String (byte_of_N (128 + (n / 4096) mod 64))
         (String (byte_of_N (128 + (n / 64) mod 64))
            (String (byte_of_N (128 + n mod 64)) ""))).

Definition is_high_surrogate (u : N) : bool := (55296 <=? u)%N && (u <? 56320)%N.
Definition is_low_surrogate (u : N) : bool := (56320 <=? u)%N && (u <? 57344)%N.
Definition replacement_char : N := 65533.

(** Well-formed UTF-8, as [unicode/utf8] accepts it: for a leading byte
    above 0x7F, the ranges of the bytes that must follow it.  Overlong
    forms, surrogates and code points above U+10FFFF have no entry. *)
Definition continuation : nat * nat := (128, 191)%nat.

Definition utf8_tail (b : ascii) : option (list (nat * nat)) :=
  if between 194 223 b then Some [continuation]
  else if between 224 224 b then Some [(160, 191)%nat; continuation]
  else if between 225 236 b then Some [continuation; continuation]
  else if between 237 237 b then Some [(128, 159)%nat; continuation]
  else if between 238 239 b then Some [continuation; continuation]
  else if between 240 240 b then Some [(144, 191)%nat; continuation; continuation]
  else if between 241 243 b then Some [continuation; continuation; continuation]
  else if between 244 244 b then Some [(128, 143)%nat; continuation; continuation]
  else None.

(** Whether the items begin with bytes in the given ranges, in order. *)
Fixpoint follows (ranges : list (nat * nat)) (items : list item) : bool :=
  match ranges with
  | [] => true
  | (lo, hi) :: ranges' =>
      match items with
      | IByte b :: r => between lo hi b && follows ranges' r
      | _ => false
      end
  end.

(** The decoder's unquoting.  A byte below 0x80 is copied.  At a byte
    from 0x80 on, [utf8.DecodeRune] is asked: a well-formed sequence is
    copied whole ([pending] counts its bytes still to copy), any other
    byte becomes U+FFFD and decoding resumes at the next byte.  A
    surrogate pair of [\uXXXX] escapes is combined, a lone surrogate
    becomes U+FFFD. *)
Fixpoint unquote_from (pending : nat) (items : list item) : string :=
  match items with
  | [] => ""
  | IByte b :: r =>
      match pending with
      | S pending' => String b (unquote_from pending' r)
      | O =>
          if (nat_of_ascii b <? 128)%nat then String b (unquote_from 0 r)
          else
            match utf8_tail b with
            | Some ranges =>
                if follows ranges r
                then String b (unquote_from (length ranges) r)
                else utf8 replacement_char +:+ unquote_from 0 r
            | None => utf8 replacement_char +:+ unquote_from 0 r
            end
      end
  | IUnit u :: r =>
      if is_high_surrogate u then
        match r with
        | IUnit lo :: r' =>
            if is_low_surrogate lo
            then utf8 (65536 + (u - 55296) * 1024 + (lo - 56320)) +:+ unquote_from 0 r'
            else utf8 replacement_char +:+ unquote_from 0 r
        | _ => utf8 replacement_char +:+ unquote_from 0 r
        end
      else if is_low_surrogate u then utf8 replacement_char +:+ unquote_from 0 r
      else utf8 u +:+ unquote_from 0 r
  end.

Definition unquote (items : list item) : string := unquote_from 0 items.

Definition is_digit (c : ascii) : bool := between 48 57 c.

Definition hex_value (c : ascii) : option N :=
  let n := N_of_ascii c in
  if between 48 57 c then Some (n - 48)%N
  else if between 97 102 c then Some (n - 87)%N
  else if between 65 70 c then Some (n - 55)%N
  else None.

Definition is_space (c : ascii) : bool :=
  Ascii.eqb c " " || (nat_of_ascii c =? 9)%nat
  || (nat_of_ascii c =? 10)%nat || (nat_of_ascii c =? 13)%nat.

(** Bytes of a number or of one of the three literal names. *)
Definition is_word (c : ascii) : bool :=
  is_digit c || between 97 122 c || between 65 90 c
  || Ascii.eqb c "-" || Ascii.eqb c "+" || Ascii.eqb c ".".

Fixpoint skip_digits (s : string) : string :=
  match s with
  | String c r => if is_digit c then skip_digits r else s
  | EmptyString => s
  end.

Definition starts_with_digit (s : string) : bool :=
  match s with String c _ => is_digit c | EmptyString => false end.

(** The number grammar: an optional minus sign; a zero, or a non-zero
    digit and further digits; optionally a point and one or more digits;
    optionally [e] or [E], an optional sign and one or more digits. *)
Definition number_exp (s : string) : bool :=
  match s with
  | EmptyString => true
  | String c r =>
      if Ascii.eqb c "e" || Ascii.eqb c "E" then
        let r' := match r with
                  | String sg r2 =>
                      if Ascii.eqb sg "+" || Ascii.eqb sg "-" then r2 else r
                  | EmptyString => r
                  end in
        starts_with_digit r' && String.eqb (skip_digits r') ""
      else false
  end.

Definition number_frac (s : string) : bool :=
  match s with
  | String c r =>
      if Ascii.eqb c "." then starts_with_digit r && number_exp (skip_digits r)
      else number_exp s
  | EmptyString => true
  end.

Definition number_int (s : string) : bool :=
  match s with
  | String c r =>
      if Ascii.eqb c "0" then number_frac r
      else if is_digit c then number_frac (skip_digits r)
      else false
  | EmptyString => false
  end.

Definition valid_number (s : string) : bool :=
  match s with
  | String c r => if Ascii.eqb c "-" then number_int r else number_int s
  | EmptyString => false
  end.

(** The digits at the head of a string, and what follows them. *)
Fixpoint span_digits (s : string) : string * string :=
  match s with
  | String c r =>
      if is_digit c then let '(digits, rest) := span_digits r in (String c digits, rest)
      else (EmptyString, s)
  | EmptyString => (EmptyString, EmptyString)
  end.

Fixpoint strip_zeros (s : string) : string :=
  match s with
  | String c r => if Ascii.eqb c "0" then strip_zeros r else s
  | EmptyString => s
  end.

Fixpoint digits_value (acc : Z) (s : string) : Z :=
  match s with
  | String c r => digits_value (10 * acc + (Z.of_nat (nat_of_ascii c) - 48))%Z r
  | EmptyString => acc
  end.

(** The least magnitude that does not round to a float64: half an ulp
    above the largest one. *)
Definition float64_limit : Z := (2 ^ 1024 - 2 ^ 970)%Z.

(** Whether [strconv.ParseFloat(lit, 64)] fails on a literal of the
    number grammar, which it does exactly when the number is out of
    range: its magnitude [m * 10^k] rounds to an infinity.  (Too small a
    number is no error: it rounds to zero.)  [dp] is the position of the
    decimal point after the first significant digit; outside -330..310
    the answer is known without the comparison. *)
Definition out_of_range (lit : string) : bool :=
  let unsigned :=
    match lit with
    | String c r => if Ascii.eqb c "-" then r else lit
    | EmptyString => lit
    end in
  let '(int, after_int) := span_digits unsigned in
  let '(frac, after_frac) :=
    match after_int with
    | String c r => if Ascii.eqb c "." then span_digits r else (EmptyString, after_int)
    | EmptyString => (EmptyString, EmptyString)
    end in
  let e :=
    match after_frac with
    | String _ (String sign r as r0) =>
        if Ascii.eqb sign "-" then (- digits_value 0 r)%Z
        else if Ascii.eqb sign "+" then digits_value 0 r
        else digits_value 0 r0
    | _ => 0%Z
    end in
  let significant := strip_zeros (int +:+ frac) in
  let m := digits_value 0 significant in
  let k := (e - Z.of_nat (String.length frac))%Z in
  let dp := (Z.of_nat (String.length significant) + k)%Z in
  if String.eqb significant "" then false
  else if (310 <? dp)%Z then true
  else if (dp <? -330)%Z then false
  else (float64_limit * 10 ^ Z.max 0 (- k) <=? m * 10 ^ Z.max 0 k)%Z.

Definition word_token (w : string) : option token :=
  if String.eqb w "true" then Some TTrue
  else if String.eqb w "false" then Some TFalse
  else if String.eqb w "null" then Some TNull
  else if valid_number w then Some (TNumber w)
  else None.

Inductive lex_state : Type :=
| LDefault
| LString (acc : list item)
| LEscape (acc : list item)
| LUnicode (acc : list item) (digits : nat) (u : N)
| LWord (acc : list ascii).

Definition string_of_rev (acc : list ascii) : string :=
  string_of_list_ascii (rev acc).

Definition punct (c : ascii) : option token :=
  if Ascii.eqb c "{" then Some TLBrace
  else if Ascii.eqb c "}" then Some TRBrace
  else if Ascii.eqb c "[" then Some TLBracket
  else if Ascii.eqb c "]" then Some TRBracket
  else if Ascii.eqb c ":" then Some TColon
  else if Ascii.eqb c "," then Some TComma
  else None.

Definition escape (c : ascii) : option ascii :=
  if Ascii.eqb c Fmt.dquote then Some Fmt.dquote
  else if Ascii.eqb c Fmt.backslash then Some Fmt.backslash
  else if Ascii.eqb c "/" then Some "/"%char
  else if Ascii.eqb c "b" then Some (ascii_of_nat 8)
  else if Ascii.eqb c "f" then Some (ascii_of_nat 12)
  else if Ascii.eqb c "n" then Some (ascii_of_nat 10)
  else if Ascii.eqb c "r" then Some (ascii_of_nat 13)
  else if Ascii.eqb c "t" then Some (ascii_of_nat 9)
  else None.

(** One byte outside a string literal or a word. *)
Definition lex_default (c : ascii) : option (lex_state * list token) :=
  if is_space c then Some (LDefault, [])
  else if Ascii.eqb c Fmt.dquote then Some (LString [], [])
  else if is_word c then Some (LWord [c], [])
  else match punct c with
       | Some t => Some (LDefault, [t])
       | None => None
       end.

(** One step of the scanner: the next state and the tokens completed by
    this byte. *)
Definition lex_step (st : lex_state) (c : ascii) : option (lex_state * list token) :=
  match st with
  | LDefault => lex_default c
  | LString acc =>
      if Ascii.eqb c Fmt.dquote then Some (LDefault, [TString (unquote (rev acc))])
      else if Ascii.eqb c Fmt.backslash then Some (LEscape acc, [])
      else if (nat_of_ascii c <? 32)%nat then None
      else Some (LString (IByte c :: acc), [])
  | LEscape acc =>
      if Ascii.eqb c "u" then Some (LUnicode acc 4 0%N, [])
      else e ← escape c; Some (LString (IByte e :: acc), [])
  | LUnicode acc digits u =>
      h ← hex_value c;
      let u' := (16 * u + h)%N in
      match digits with
      | 1%nat => Some (LString (IUnit u' :: acc), [])
      | _ => Some (LUnicode acc (pred digits) u', [])
      end
  | LWord acc =>
      if is_word c then Some (LWord (c :: acc), [])
      else
        t ← word_token (string_of_rev acc);
        '(st', ts) ← lex_default c;
        Some (st', t :: ts)
  end.

(** The end of the input: a pending word is completed, an open string
    literal or escape is an error. *)
Definition lex_end (st : lex_state) : option (list token) :=
  match st with
  | LDefault => Some []
  | LWord acc => t ← word_token (string_of_rev acc); Some [t]
  | _ => None
  end.

(** The scanner, one byte at a time; the tokens come out in order. *)
Fixpoint lex (st : lex_state) (s : string) : option (list token) :=
  match s with
  | EmptyString => lex_end st
  | String c r =>
      '(st', ts) ← lex_step st c; rest ← lex st' r; Some (ts ++ rest)
  end.

(** The scanner stopped in the middle of the input: the state reached and
    the tokens completed so far. *)
Fixpoint lex_run (st : lex_state) (s : string) : option (lex_state * list token) :=
  match s with
  | EmptyString => Some (st, [])
  | String c r =>
      '(st', ts) ← lex_step st c;
      '(st'', ts') ← lex_run st' r;
      Some (st'', ts ++ ts')
  end.

(** The deepest nesting of arrays and objects the decoder accepts. *)
Definition maxNestingDepth : N := 10000.

(** The parser over tokens.  [depth] is the number of arrays and objects
    around the value; a number is converted to a float64 as it is met.
    [fuel] bounds the recursion; twice the number of tokens plus two is
    always enough. *)
Fixpoint parse_value (fuel : nat) (depth : N) (ts : list token)
  : option (value * list token) :=
  match fuel with
  | O => None
  | S fuel =>
      match ts with
      | TString s :: r => Some (VStr s, r)
      | TNumber n :: r => if out_of_range n then None else Some (VNum n, r)
      | TTrue :: r => Some (VBool true, r)
      | TFalse :: r => Some (VBool false, r)
      | TNull :: r => Some (VNil, r)
      | TLBracket :: r =>
          if (maxNestingDepth <=? depth)%N then None
          else
            match r with
            | TRBracket :: r' => Some (VArr [], r')
            | _ => '(vs, r') ← parse_elements fuel (N.succ depth) r; Some (VArr vs, r')
            end
      | TLBrace :: r =>
          if (maxNestingDepth <=? depth)%N then None
          else
            match r with
            | TRBrace :: r' => Some (VMap [], r')
            | _ => '(ms, r') ← parse_members fuel (N.succ depth) r; Some (VMap ms, r')
            end
      | _ => None
      end
  end
with parse_elements (fuel : nat) (depth : N) (ts : list token)
  : option (list value * list token) :=
  match fuel with
  | O => None
  | S fuel =>
      match parse_value fuel depth ts with
      | Some (v, TComma :: r) =>
          '(vs, r') ← parse_elements fuel depth r; Some (v :: vs, r')
      | Some (v, TRBracket :: r) => Some ([v], r)
      | _ => None
      end
  end
with parse_members (fuel : nat) (depth : N) (ts : list token)
  : option (list (string * value) * list token) :=
  match fuel with
  | O => None
  | S fuel =>
      match ts with
      | TString k :: TColon :: r =>
          match parse_value fuel depth r with
          | Some (v, TComma :: r') =>
              '(ms, r'') ← parse_members fuel depth r'; Some ((k, v) :: ms, r'')
          | Some (v, TRBrace :: r') => Some ([(k, v)], r')
          | _ => None
          end
      | _ => None
      end
  end.

(** [json.Unmarshal]: [None] stands for the returned error. *)
Definition Unmarshal (body : string) : option value :=
  ts ← lex LDefault body;
  match parse_value (2 * length ts + 2) 0 ts with
  | Some (v, []) => Some v
  | _ => None
  end.

(** [m[key]] on a decoded object: [None] is the nil interface a missing
    key yields. *)
Fixpoint map_index (m : list (string * value)) (key : string) : option value :=
  match m with
  | [] => None
  | (k, v) :: r =>
      match map_index r key with
      | Some v' => Some v'
      | None => if String.eqb k key then Some v else None
      end
  end.

End Json.

(** ** The data model *)

(** Go's interpreted string literals are written with their escapes; [lit]
    turns [\n] and [\t] into the bytes they denote. *)
Fixpoint lit (s : string) : string :=
  match s with
  | EmptyString => EmptyString
  | String c r =>
      if Ascii.eqb c Fmt.backslash then
        match r with
        | String e r' =>
            if Ascii.eqb e "n" then String (ascii_of_nat 10) (lit r')
            else if Ascii.eqb e "t" then String (ascii_of_nat 9) (lit r')
            else String c (String e (lit r'))
        | EmptyString => String c EmptyString
        end
      else String c (lit r)
  end.

(** A call that returns [(T, error)]: the value, or the error's message. *)
Inductive errorOr (A : Type) : Type :=
| Value (a : A)
| Error (msg : string).
Arguments Value {A} a.
Arguments Error {A} msg.

Module turso.

(** [turso.Database]; [Type_] is the field [Type]. *)
Record Database : Type := {
  ID : string;
  Name : string;
  Type_ : string;
  Hostname : string;
  Regions : list string
}.

(** The result of [client.Databases.Create]. *)
Record CreateDatabaseResponse : Type := {
  Database_ : Database;
  Username : string;
  Password : string
}.

End turso.

Module settings.

Record DatabaseSettings : Type := {
  Name : string;
  Host : string;
  Username : string;
  Password : string
}.

(** Modelled from the spec: the settings package is not part of this
    file.  The persisted local state is a bearer token, a name cache
    whose presence is a hit, and a map from remote database ID to the
    database's settings. *)
Record Settings : Type := {
  token : string;
  db_names_cache : option (list string);
  databases : gmap string DatabaseSettings
}.

(** Modelled from the spec: [GetToken] reads the stored bearer token. *)
Definition GetToken (s : Settings) : string := token s.

(** Modelled from the spec: [GetDbNamesCache] returns the cached snapshot
    if present, else absent (the nil slice). *)
Definition GetDbNamesCache (s : Settings) : option (list string) :=
  db_names_cache s.

(** Modelled from the spec: [SetDbNamesCache] overwrites the snapshot. *)
Definition SetDbNamesCache (names : list string) (s : Settings) : Settings :=
  {| token := token s; db_names_cache := Some names; databases := databases s |}.

(** Modelled from the spec: [InvalidateDbNamesCache] clears the snapshot. *)
Definition InvalidateDbNamesCache (s : Settings) : Settings :=
  {| token := token s; db_names_cache := None; databases := databases s |}.

(** Modelled from the spec: [AddDatabase] creates or overwrites the entry
    keyed by the remote ID. *)
Definition AddDatabase (id : string) (d : DatabaseSettings) (s : Settings) : Settings :=
  {| token := token s; db_names_cache := db_names_cache s;
     databases := <[id := d]> (databases s) |}.

(** Modelled from the spec: [GetDatabaseSettings] returns a pointer to the
    entry keyed by the remote ID; [None] is the nil pointer of a missing
    entry. *)
Definition GetDatabaseSettings (id : string) (s : Settings) : option DatabaseSettings :=
  databases s !! id.

End settings.

(** [Region], the body the region probe decodes. *)
Record Region : Type := { Server : string }.

(** [http.Response], as far as the file reads it: [Body] is what
    [io.ReadAll(resp.Body)] returns. *)
Record Response : Type := {
  StatusCode : Z;
  Status : string;
  Body : errorOr string
}.

(** The request [replicateCmd] builds: [POST] to [req_url], with the
    [Authorization] header and the body. *)
Record Request : Type := {
  req_url : string;
  req_authorization : string;
  req_body : string
}.

(** The outcome of the region probe: [http.Get] failed, the body did not
    decode into a [Region], or it did. *)
Inductive ProbeOutcome : Type :=
| ProbeGetFailed (msg : string)
| ProbeDecodeFailed (msg : string)
| ProbeDecoded (reg : Region).

(** The package-level flag variables. *)
Record Flags : Type := {
  canary : bool;
  showUrlFlag : bool;
  region : string;
  yesFlag : bool;
  instanceFlag : string;
  regionFlag : string
}.

(** Everything outside the file that one command invocation consults: the
    control plane behind [*turso.Client], the process environment, the
    network, the terminal and the helpers of other files.  Each field is
    what the call answers during this invocation. *)
Record World : Type := {
  (* settings.ReadSettings: the error, if any *)
  ReadSettings_err : option string;
  (* turso.GetRegions(client), already projected to .Ids *)
  GetRegions : errorOr (list string);
  (* client.Databases.List() *)
  Databases_List : errorOr (list turso.Database);
  (* client.Databases.Create(name, region, image) *)
  Databases_Create : string → string → string → errorOr turso.CreateDatabaseResponse;
  (* client.Instances.Create(name, password, region, image): the error *)
  Instances_Create : string → string → string → string → option string;
  (* the remote calls behind the three destroy helpers: the error *)
  Databases_Delete : string → option string;
  Databases_DeleteRegion : string → string → option string;
  Instances_Delete : string → string → option string;
  (* os.Getenv("TURSO_API_BASEURL") *)
  TURSO_API_BASEURL : string;
  (* codename.DefaultRNG followed by codename.Generate *)
  codename_Generate : errorOr string;
  (* http.Get(probeUrl) and the decoding of its body *)
  probe : ProbeOutcome;
  (* http.NewRequest("POST", url, body): the error *)
  http_NewRequest_err : string → option string;
  (* (&http.Client{}).Do(req) *)
  http_Do : Request → errorOr Response;
  (* whole seconds between time.Now() and the later reading of the clock *)
  elapsed_seconds : Z;
  (* the color functions *)
  emph : string → string;
  warn : string → string;
  (* promptConfirmation *)
  promptConfirmation : string → errorOr bool;
  (* dbSettings.GetURL(), getDatabaseUrl, getDatabaseRegions *)
  GetURL : settings.DatabaseSettings → string;
  getDatabaseUrl : settings.Settings → turso.Database → string;
  getDatabaseRegions : turso.Database → string
}.

(** ** Errors, panics and the trace *)

(** The errors the commands return, one constructor per place that makes
    or forwards one. *)
Inductive error : Type :=
| ErrReadSettings (msg : string)
| ErrDefaultRNG (msg : string)
| ErrRegionNotValid (region : string)
| ErrCouldNotCreateDatabase (name msg : string)
| ErrFailedToCreateInstance (name msg : string)
| ErrDatabasesList (msg : string)
| ErrDatabaseNotFound (name : string)
| ErrCouldNotReadLocalSettings
| ErrUserNotLoggedIn
| ErrMustSpecifyName
| ErrMustSpecifyRegion
| ErrInvalidRegionID
| ErrPleaseLogin
| ErrNewRequest (msg : string)
| ErrDo (msg : string)
| ErrFailedToCreateDatabase (status : string)
| ErrReadAll (msg : string)
| ErrUnmarshal
| ErrPrompt (msg : string)
| ErrRemote (msg : string).

Inductive panic : Type :=
| PanicIndexOutOfRange
| PanicNilDereference
| PanicInterfaceConversion.

Inductive event : Type :=
| EvReadSettings
| EvGetToken
| EvGetDbNamesCache
| EvSetDbNamesCache (names : list string)
| EvInvalidateDbNamesCache
| EvAddDatabase (id : string) (d : settings.DatabaseSettings)
| EvGetDatabaseSettings (id : string)
| EvGetRegions
| EvDatabasesList
| EvDatabasesCreate (name region image : string)
| EvInstancesCreate (name password region image : string)
| EvDatabasesDelete (name : string)
| EvDatabasesDeleteRegion (name region : string)
| EvInstancesDelete (name instance : string)
| EvHttpGet (url : string)
| EvHttpNewRequest (method url body : string)
| EvHttpDo (req : Request)
| EvPrompt (question : string)
| EvPrintTable (header : list string) (rows : list (list string))
| EvPrint (text : string).

Inductive result (A : Type) : Type :=
| Ok (a : A)
| Err (e : error)
| Panic (p : panic).
Arguments Ok {A} a.
Arguments Err {A} e.
Arguments Panic {A} p.

Record state : Type := {
  config : settings.Settings;
  trace : list event
}.

Definition M (A : Type) : Type := state → result A * state.

Definition ret {A : Type} (a : A) : M A := fun s => (Ok a, s).

Definition bind {A B : Type} (m : M A) (k : A → M B) : M B :=
  fun s =>
    match m s with
    | (Ok a, s') => k a s'
    | (Err e, s') => (Err e, s')
    | (Panic p, s') => (Panic p, s')
    end.

Definition fail {A : Type} (e : error) : M A := fun s => (Err e, s).

Definition throw {A : Type} (p : panic) : M A := fun s => (Panic p, s).

(** A callee's error handed to the caller as a value, as in
    [v, err := f()]; a panic is not caught. *)
Definition attempt {A : Type} (m : M A) : M (error + A) :=
  fun s =>
    match m s with
    | (Ok a, s') => (Ok (inr a), s')
    | (Err e, s') => (Ok (inl e), s')
    | (Panic p, s') => (Panic p, s')
    end.

Definition emit (e : event) : M unit :=
  fun s => (Ok tt, {| config := config s; trace := trace s ++ [e] |}).

Definition get_config : M settings.Settings := fun s => (Ok (config s), s).

Definition modify_config (f : settings.Settings → settings.Settings) : M unit :=
  fun s => (Ok tt, {| config := f (config s); trace := trace s |}).

Notation "x <- m ;; k" := (bind m (fun x => k))
  (at level 100, m at next level, right associativity).
Notation "m ;; k" := (bind m (fun _ => k))
  (at level 100, right associativity).

(** The error's message, with the format strings of the source; a
    forwarded error keeps its own message, and the text of the JSON
    decoder's error is not modelled ([None]). *)
Definition error_message (w : World) (e : error) : option string :=
  match e with
  | ErrReadSettings msg | ErrDefaultRNG msg | ErrDatabasesList msg
  | ErrNewRequest msg | ErrDo msg | ErrReadAll msg | ErrRemote msg => Some msg
  | ErrRegionNotValid region =>
      Some (Fmt.Sprintf "region '%s' is not a valid one" [region])
  | ErrCouldNotCreateDatabase name msg =>
      Some (Fmt.Sprintf "could not create database %s: %w" [name; msg])
  | ErrFailedToCreateInstance name msg =>
      Some (Fmt.Sprintf "failed to create instance for database %s: %w" [name; msg])
  | ErrDatabaseNotFound name =>
      Some (Fmt.Sprintf "database with name %s not found" [name])
  | ErrCouldNotReadLocalSettings => Some "could not read local settings"
  | ErrUserNotLoggedIn => Some "user not logged in"
  | ErrMustSpecifyName => Some "You must specify a database name to replicate it."
  | ErrMustSpecifyRegion =>
      Some "You must specify a database region ID to replicate it."
  | ErrInvalidRegionID =>
      Some (Fmt.Sprintf "Invalid region ID. Run %s to see a list of valid region IDs."
              [emph w "turso db regions"])
  | ErrPleaseLogin =>
      Some (Fmt.Sprintf "please login with %s" [emph w "turso auth login"])
  | ErrFailedToCreateDatabase status =>
      Some (Fmt.Sprintf "Failed to create database: %s" [status])
  | ErrUnmarshal => None
  | ErrPrompt msg =>
      Some (Fmt.Sprintf "could not get prompt confirmed by user: %w" [msg])
  end.

(** ** The calls that leave the file *)

Definition ReadSettings (w : World) : M (option string) :=
  emit EvReadSettings ;; ret (ReadSettings_err w).

Definition GetToken : M string :=
  emit EvGetToken ;; c <- get_config ;; ret (settings.GetToken c).

Definition GetDbNamesCache : M (option (list string)) :=
  emit EvGetDbNamesCache ;; c <- get_config ;; ret (settings.GetDbNamesCache c).

Definition SetDbNamesCache (names : list string) : M unit :=
  emit (EvSetDbNamesCache names) ;; modify_config (settings.SetDbNamesCache names).

Definition InvalidateDbNamesCache : M unit :=
  emit EvInvalidateDbNamesCache ;; modify_config settings.InvalidateDbNamesCache.

Definition AddDatabase (id : string) (d : settings.DatabaseSettings) : M unit :=
  emit (EvAddDatabase id d) ;; modify_config (settings.AddDatabase id d).

Definition GetDatabaseSettings (id : string) : M (option settings.DatabaseSettings) :=
  emit (EvGetDatabaseSettings id) ;;
  c <- get_config ;; ret (settings.GetDatabaseSettings id c).

Definition Printf (format : string) (args : list string) : M unit :=
  emit (EvPrint (Fmt.Sprintf format args)).

Definition Println (text : string) : M unit :=
  emit (EvPrint (text +:+ lit "\n")).

Definition printTable (header : list string) (rows : list (list string)) : M unit :=
  emit (EvPrintTable header rows).

(** [%d] of an [int]. *)
Definition itoa (n : Z) : string := DecimalString.NilZero.string_of_int (Z.to_int n).

(** [args[i]]. *)
Definition index (args : list string) (i : nat) : M string :=
  match nth_error args i with
  | Some a => ret a
  | None => throw PanicIndexOutOfRange
  end.

(** ** The helpers of [db.go] *)

Definition getRegionIds (w : World) : M (list string) :=
  emit EvGetRegions ;;
  match GetRegions w with
  | Error _ => ret []
  | Value ids => ret ids
  end.

Fixpoint extractDatabaseNames (databases : list turso.Database) : list string :=
  match databases with
  | [] => []
  | database :: rest =>
      let name := turso.Name database in
      let ty := turso.Type_ database in
      if String.eqb ty "primary"
      then name :: extractDatabaseNames rest
      else extractDatabaseNames rest
  end.

Definition getDatabases (w : World) : M (errorOr (list turso.Database)) :=
  emit EvDatabasesList ;; ret (Databases_List w).

Definition fetchDatabaseNames (w : World) : M (list string) :=
  r <- getDatabases w ;;
  match r with
  | Error _ => ret []
  | Value databases => ret (extractDatabaseNames databases)
  end.

(** The loop of [getDatabase]: the first database of that name. *)
Fixpoint find_database (databases : list turso.Database) (name : string)
  : option turso.Database :=
  match databases with
  | [] => None
  | database :: rest =>
      if String.eqb (turso.Name database) name then Some database
      else find_database rest name
  end.

Definition getDatabase (w : World) (name : string) : M turso.Database :=
  r <- getDatabases w ;;
  match r with
  | Error msg => fail (ErrDatabasesList msg)
  | Value databases =>
      match find_database databases name with
      | Some database => ret database
      | None => fail (ErrDatabaseNotFound name)
      end
  end.

Definition getDatabaseNames (w : World) : M (list string) :=
  err <- ReadSettings w ;;
  match err with
  | Some _ => fetchDatabaseNames w
  | None =>
      cached_names <- GetDbNamesCache ;;
      match cached_names with
      | Some names => ret names
      | None =>
          names <- fetchDatabaseNames w ;;
          SetDbNamesCache names ;;
          ret names
      end
  end.

Definition getAccessToken (w : World) : M string :=
  err <- ReadSettings w ;;
  match err with
  | Some _ => fail ErrCouldNotReadLocalSettings
  | None =>
      token <- GetToken ;;
      if String.eqb token "" then fail ErrUserNotLoggedIn else ret token
  end.

Definition getHost (w : World) : string :=
  let host := TURSO_API_BASEURL w in
  if String.eqb host "" then "https://api.chiseledge.com" else host.

Definition toLocation (regionId : string) : string :=
  if String.eqb regionId "ams" then "Amsterdam, Netherlands"
  else if String.eqb regionId "cdg" then "Paris, France"
  else if String.eqb regionId "den" then "Denver, Colorado (US)"
  else if String.eqb regionId "dfw" then "Dallas, Texas (US)"
  else if String.eqb regionId "ewr" then "Secaucus, NJ (US)"
  else if String.eqb regionId "fra" then "Frankfurt, Germany"
  else if String.eqb regionId "gru" then "São Paulo, Brazil"
  else if String.eqb regionId "hkg" then "Hong Kong, Hong Kong"
  else if String.eqb regionId "iad" then "Ashburn, Virginia (US)"
  else if String.eqb regionId "jnb" then "Johannesburg, South Africa"
  else if String.eqb regionId "lax" then "Los Angeles, California (US)"
  else if String.eqb regionId "lhr" then "London, United Kingdom"
  else if String.eqb regionId "maa" then "Chennai (Madras), India"
  else if String.eqb regionId "mad" then "Madrid, Spain"
  else if String.eqb regionId "mia" then "Miami, Florida (US)"
  else if String.eqb regionId "nrt" then "Tokyo, Japan"
  else if String.eqb regionId "ord" then "Chicago, Illinois (US)"
  else if String.eqb regionId "otp" then "Bucharest, Romania"
  else if String.eqb regionId "scl" then "Santiago, Chile"
  else if String.eqb regionId "sea" then "Seattle, Washington (US)"
  else if String.eqb regionId "sin" then "Singapore"
  else if String.eqb regionId "sjc" then "Sunnyvale, California (US)"
  else if String.eqb regionId "syd" then "Sydney, Australia"
  else if String.eqb regionId "waw" then "Warsaw, Poland"
  else if String.eqb regionId "yul" then "Montreal, Canada"
  else if String.eqb regionId "yyz" then "Toronto, Canada"
  else Fmt.Sprintf "Region ID: %s" [regionId].

(** The loop of [isValidRegion]. *)
Fixpoint region_in (region : string) (regionIds : list string) : bool :=
  match regionIds with
  | [] => false
  | regionId :: rest =>
      if String.eqb region regionId then true else region_in region rest
  end.

Definition isValidRegion (w : World) (region : string) : M bool :=
  regionIds <- getRegionIds w ;;
  if (length regionIds =? 0)%nat then ret true
  else ret (region_in region regionIds).

(** The fallback region ID to use if we are unable to probe the closest
    region. *)
Definition FallbackRegionId : string := "ams".

Definition FallbackWarning : string :=
  lit "Warning: we could not determine the deployment region closest to your physical location.\nThe region is defaulting to Amsterdam (ams). Consider specifying a region to select a better option using\n\n\tturso db create --region [region].\n\nRun turso db regions for a list of supported regions.\n".

Definition probeUrl : string := "https://chisel-region.fly.dev".

Definition probeClosestRegion (w : World) : M string :=
  emit (EvHttpGet probeUrl) ;;
  match probe w with
  | ProbeGetFailed _ =>
      Printf (warn w FallbackWarning) [] ;;
      ret FallbackRegionId
  | ProbeDecodeFailed _ => ret FallbackRegionId
  | ProbeDecoded reg =>
      (* Fly has regions that are not available to users. *)
      valid <- isValidRegion w (Server reg) ;;
      if valid then ret (Server reg) else ret FallbackRegionId
  end.

Definition image_of (canary : bool) : string :=
  if canary then "canary" else "latest".

(** ** [createCmd] *)

Definition createCmd (w : World) (flags : Flags) (args : list string) : M unit :=
  err <- ReadSettings w ;;
  match err with
  | Some msg => fail (ErrReadSettings msg)
  | None =>
      name <-
        (match args with
         | a :: _ =>
             if String.eqb a "" then
               match codename_Generate w with
               | Error msg => fail (ErrDefaultRNG msg)
               | Value n => ret n
               end
             else ret a
         | [] =>
             match codename_Generate w with
             | Error msg => fail (ErrDefaultRNG msg)
             | Value n => ret n
             end
         end) ;;
      let region := region flags in
      valid <-
        (if negb (String.eqb region "") then isValidRegion w region else ret true) ;;
      if negb (String.eqb region "") && negb valid
      then fail (ErrRegionNotValid region)
      else
        region <-
          (if String.eqb region "" then probeClosestRegion w else ret region) ;;
        let image := image_of (canary flags) in
        let regionText := Fmt.Sprintf "%s (%s)" [toLocation region; region] in
        emit (EvDatabasesCreate name region image) ;;
        match Databases_Create w name region image with
        | Error msg => fail (ErrCouldNotCreateDatabase name msg)
        | Value res =>
            let dbSettings :=
              {| settings.Name := turso.Name (turso.Database_ res);
                 settings.Host := turso.Hostname (turso.Database_ res);
                 settings.Username := turso.Username res;
                 settings.Password := turso.Password res |} in
            emit (EvInstancesCreate name (turso.Password res) region image) ;;
            match Instances_Create w name (turso.Password res) region image with
            | Some msg => fail (ErrFailedToCreateInstance name msg)
            | None =>
                Printf (lit "Created database %s to %s in %d seconds.\n\n")
                  [emph w name; emph w regionText; itoa (elapsed_seconds w)] ;;
                Printf (lit "You can start an interactive SQL shell with:\n\n") [] ;;
                Printf (lit "   turso db shell %s\n\n") [name] ;;
                Printf (lit "To obtain connection URL, run:\n\n") [] ;;
                Printf (lit "   turso db show --url %s\n\n") [name] ;;
                AddDatabase (turso.ID (turso.Database_ res)) dbSettings ;;
                InvalidateDbNamesCache
            end
        end
  end.

(** ** [replicateCmd] *)

(** [v.(map[string]interface{})] and [v.(string)]: the single-value form
    of the type assertion panics on nil and on any other dynamic type. *)
Definition assert_map (v : option Json.value) : M (list (string * Json.value)) :=
  match v with
  | Some (Json.VMap m) => ret m
  | _ => throw PanicInterfaceConversion
  end.

Definition assert_string (v : option Json.value) : M string :=
  match v with
  | Some (Json.VStr s) => ret s
  | _ => throw PanicInterfaceConversion
  end.

Definition is_logical (original : turso.Database) : bool :=
  String.eqb (turso.Type_ original) "logical".

Definition replicate_url (host name : string) (original : turso.Database) : string :=
  let url := Fmt.Sprintf "%s/v1/databases" [host] in
  if is_logical original
  then Fmt.Sprintf "%s/v2/databases/%s/instances" [host; name]
  else url.

Definition createDbReq (name region image password : string) : string :=
  Fmt.Sprintf
    (Fmt.raw "{'name': '%s', 'region': '%s', 'image': '%s', 'type': 'replica', 'password': '%s'}")
    [name; region; image; password].

(** The end of [replicateCmd]: the messages and the two writes to the
    local settings. *)
Definition replicate_store (w : World) (name regionText : string)
    (dbId dbHost username password : string) : M unit :=
  Printf (lit "Replicated database %s to %s in %d seconds.\n\n")
    [emph w name; emph w regionText; itoa (elapsed_seconds w)] ;;
  let dbSettings :=
    {| settings.Name := "";
       settings.Host := dbHost;
       settings.Username := username;
       settings.Password := password |} in
  Printf (lit "HTTP connection string:\n\n") [] ;;
  let dbUrl := GetURL w dbSettings in
  Printf (lit "   %s\n\n") [dbUrl] ;;
  Printf (lit "You can start an interactive SQL shell with:\n\n") [] ;;
  Printf (lit "   turso db shell %s\n\n") [dbUrl] ;;
  AddDatabase dbId dbSettings ;;
  InvalidateDbNamesCache.

(** The part of [replicateCmd] after [json.Unmarshal]: the untyped
    traversal of the decoded response, then [replicate_store]. *)
Definition replicate_finish (w : World) (name regionText : string)
    (original : turso.Database) (result : Json.value) : M unit :=
  m <-
    (if is_logical original then
       r <- assert_map (Some result) ;; assert_map (Json.map_index r "instance")
     else
       r <- assert_map (Some result) ;; assert_map (Json.map_index r "database")) ;;
  username <- (r <- assert_map (Some result) ;; assert_string (Json.map_index r "username")) ;;
  password <- (r <- assert_map (Some result) ;; assert_string (Json.map_index r "password")) ;;
  idHost <-
    (if is_logical original then
       dbId <- assert_string (Json.map_index m "uuid") ;;
       ret (dbId, turso.Hostname original)
     else
       dbId <- assert_string (Json.map_index m "DbId") ;;
       dbHost <- assert_string (Json.map_index m "Hostname") ;;
       ret (dbId, dbHost)) ;;
  let '(dbId, dbHost) := idHost in
  replicate_store w name regionText dbId dbHost username password.

(** The part from the HTTP response on: the status check, the reading and
    the decoding of the body. *)
Definition replicate_response (w : World) (name regionText : string)
    (original : turso.Database) (resp : Response) : M unit :=
  if negb (StatusCode resp =? 200)%Z
  then fail (ErrFailedToCreateDatabase (Status resp))
  else
    match Body resp with
    | Error msg => fail (ErrReadAll msg)
    | Value body =>
        match Json.Unmarshal body with
        | None => fail ErrUnmarshal
        | Some result => replicate_finish w name regionText original result
        end
    end.

(** The part from the source database on: the request and its sending. *)
Definition replicate_request (w : World) (name region image accessToken : string)
    (original : turso.Database) : M unit :=
  let host := getHost w in
  let url := replicate_url host name original in
  let bearer := "Bearer " +:+ accessToken in
  dbSettings <- GetDatabaseSettings (turso.ID original) ;;
  match dbSettings with
  | None => throw PanicNilDereference
  | Some dbSettings =>
      let password := settings.Password dbSettings in
      let body := createDbReq name region image password in
      emit (EvHttpNewRequest "POST" url body) ;;
      match http_NewRequest_err w url with
      | Some msg => fail (ErrNewRequest msg)
      | None =>
          let req := {| req_url := url; req_authorization := bearer; req_body := body |} in
          let regionText := Fmt.Sprintf "%s (%s)" [toLocation region; region] in
          emit (EvHttpDo req) ;;
          match http_Do w req with
          | Error msg => fail (ErrDo msg)
          | Value resp => replicate_response w name regionText original resp
          end
      end
  end.

Definition replicateCmd (w : World) (flags : Flags) (args : list string) : M unit :=
  err <- ReadSettings w ;;
  match err with
  | Some msg => fail (ErrReadSettings msg)
  | None =>
      name <- index args 0 ;;
      if String.eqb name "" then fail ErrMustSpecifyName
      else
        region <- index args 1 ;;
        if String.eqb region "" then fail ErrMustSpecifyRegion
        else
          valid <- isValidRegion w region ;;
          if negb valid then fail ErrInvalidRegionID
          else
            let image := image_of (canary flags) in
            tok <- attempt (getAccessToken w) ;;
            match tok with
            | inl _ => fail ErrPleaseLogin
            | inr accessToken =>
                orig <- attempt (getDatabase w name) ;;
                match orig with
                | inl _ => fail ErrPleaseLogin
                | inr original =>
                    replicate_request w name region image accessToken original
                end
            end
  end.

(** ** [destroyCmd] *)

(** Modelled from the spec: [destroyDatabase] is defined in another file;
    it removes the whole database with one remote call, whose error
    propagates, and it updates neither the name cache nor the local
    settings. *)
Definition destroyDatabase (w : World) (name : string) : M unit :=
  emit (EvDatabasesDelete name) ;;
  match Databases_Delete w name with
  | Some msg => fail (ErrRemote msg)
  | None => ret tt
  end.

(** Modelled from the spec: [destroyDatabaseRegion] is defined in another
    file; it removes the footprint in one region with one remote call,
    whose error propagates. *)
Definition destroyDatabaseRegion (w : World) (name region : string) : M unit :=
  emit (EvDatabasesDeleteRegion name region) ;;
  match Databases_DeleteRegion w name region with
  | Some msg => fail (ErrRemote msg)
  | None => ret tt
  end.

(** Modelled from the spec: [destroyDatabaseInstance] is defined in
    another file; it removes one named instance with one remote call,
    whose error propagates. *)
Definition destroyDatabaseInstance (w : World) (name instance : string) : M unit :=
  emit (EvInstancesDelete name instance) ;;
  match Instances_Delete w name instance with
  | Some msg => fail (ErrRemote msg)
  | None => ret tt
  end.

Definition destroyCmd (w : World) (flags : Flags) (args : list string) : M unit :=
  name <- index args 0 ;;
  if negb (String.eqb (instanceFlag flags) "")
  then destroyDatabaseInstance w name (instanceFlag flags)
  else if negb (String.eqb (regionFlag flags) "")
  then destroyDatabaseRegion w name (regionFlag flags)
  else if yesFlag flags
  then destroyDatabase w name
  else
    Printf (lit "Database %s, all its replicas, and data will be destroyed.\n")
      [emph w name] ;;
    emit (EvPrompt "Are you sure you want to do this?") ;;
    match promptConfirmation w "Are you sure you want to do this?" with
    | Error msg => fail (ErrPrompt msg)
    | Value ok =>
        if negb ok
        then Println "Database destruction avoided."
        else destroyDatabase w name
    end.

(** ** [listCmd] *)

Definition listCmd (w : World) : M unit :=
  err <- ReadSettings w ;;
  match err with
  | Some msg => fail (ErrReadSettings msg)
  | None =>
      r <- getDatabases w ;;
      match r with
      | Error msg => fail (ErrDatabasesList msg)
      | Value databases =>
          c <- get_config ;;
          let data :=
            map (fun database =>
                   [turso.Name database; turso.Type_ database;
                    getDatabaseRegions w database; getDatabaseUrl w c database])
                databases in
          printTable ["name"; "type"; "regions"; "url"] data ;;
          SetDbNamesCache (extractDatabaseNames databases)
      end
  end.

(** Running a command from given local settings, with an empty trace. *)
Definition run {A : Type} (m : M A) (c : settings.Settings) : result A * state :=
  m {| config := c; trace := [] |}.

(** ** Reading a trace *)

(** The requests sent with [client.Do]. *)
Definition requests (t : list event) : list Request :=
  omap (fun e => match e with EvHttpDo req => Some req | _ => None end) t.

(** The entries written into the local settings map. *)
Definition writes (t : list event) : list (string * settings.DatabaseSettings) :=
  omap (fun e => match e with EvAddDatabase id d => Some (id, d) | _ => None end) t.

(** The remote creations asked for: the databases and the instances. *)
Definition database_creates (t : list event) : list (string * string * string) :=
  omap (fun e => match e with
                 | EvDatabasesCreate name region image => Some (name, region, image)
                 | _ => None
                 end) t.

Definition instance_creates (t : list event)
  : list (string * string * string * string) :=
  omap (fun e => match e with
                 | EvInstancesCreate name password region image =>
                     Some (name, password, region, image)
                 | _ => None
                 end) t.

(** The texts printed on the terminal. *)
Definition printed (t : list event) : list string :=
  omap (fun e => match e with EvPrint text => Some text | _ => None end) t.

(** The values stored in the name cache. *)
Definition cache_stores (t : list event) : list (list string) :=
  omap (fun e => match e with EvSetDbNamesCache names => Some names | _ => None end) t.

(** The steps that change remote or local state. *)
Inductive step : Type :=
| RemoteDatabaseCreate
| RemoteInstanceCreate
| RemoteDelete
| LocalSettingsWrite
| CacheStore
| CacheInvalidate.

Definition step_of (e : event) : option step :=
  match e with
  | EvDatabasesCreate _ _ _ => Some RemoteDatabaseCreate
  | EvInstancesCreate _ _ _ _ => Some RemoteInstanceCreate
  | EvDatabasesDelete _ | EvDatabasesDeleteRegion _ _ | EvInstancesDelete _ _ =>
      Some RemoteDelete
  | EvAddDatabase _ _ => Some LocalSettingsWrite
  | EvSetDbNamesCache _ => Some CacheStore
  | EvInvalidateDbNamesCache => Some CacheInvalidate
  | _ => None
  end.

Definition steps (t : list event) : list step := omap step_of t.

(** The events that read or modify the local settings. *)
Definition touches_settings (e : event) : bool :=
  match e with
  | EvReadSettings | EvGetToken | EvGetDbNamesCache | EvSetDbNamesCache _
  | EvInvalidateDbNamesCache | EvAddDatabase _ _ | EvGetDatabaseSettings _ => true
  | _ => false
  end.

Definition settings_accesses (t : list event) : list event :=
  List.filter touches_settings t.

(** The region catalog as [isValidRegion] reads it: a failed fetch is the
    empty catalog. *)
Definition catalog (w : World) : list string :=
  match GetRegions w with
  | Error _ => []
  | Value ids => ids
  end.

(** Whether the catalog accepts a region: an empty catalog accepts all. *)
Definition region_accepted (w : World) (region : string) : bool :=
  match catalog w with
  | [] => true
  | ids => region_in region ids
  end.

(** The decoded response to a request, and a field of a decoded object. *)
Definition decoded_response (w : World) (req : Request) : option Json.value :=
  match http_Do w req with
  | Value resp =>
      match Body resp with
      | Value body => Json.Unmarshal body
      | Error _ => None
      end
  | Error _ => None
  end.

Definition field (v : option Json.value) (key : string) : option Json.value :=
  match v with
  | Some (Json.VMap m) => Json.map_index m key
  | _ => None
  end.

(** What the response must hold for its shape: the object named
    [instance] with a string [uuid], or the object named [database] with
    strings [DbId] and [Hostname]; and strings [username] and [password].
    The result is the new settings key and the new settings. *)
Definition response_fields (original : turso.Database) (result : Json.value)
  : option (string * settings.DatabaseSettings) :=
  match field (Some result) "username", field (Some result) "password" with
  | Some (Json.VStr username), Some (Json.VStr password) =>
      if is_logical original then
        match field (field (Some result) "instance") "uuid" with
        | Some (Json.VStr dbId) =>
            Some (dbId, {| settings.Name := ""; settings.Host := turso.Hostname original;
                           settings.Username := username; settings.Password := password |})
        | _ => None
        end
      else
        match field (field (Some result) "database") "DbId",
              field (field (Some result) "database") "Hostname" with
        | Some (Json.VStr dbId), Some (Json.VStr dbHost) =>
            Some (dbId, {| settings.Name := ""; settings.Host := dbHost;
                           settings.Username := username; settings.Password := password |})
        | _, _ => None
        end
  | _, _ => None
  end.

(** What response parsing comes to, from the body alone: an unreadable
    body and a body that is not JSON are returned as errors; a decoded
    body with the fields of its shape succeeds, any other panics. *)
Definition parsing_outcome (original : turso.Database) (resp : Response) : result unit :=
  match Body resp with
  | Error msg => Err (ErrReadAll msg)
  | Value body =>
      match Json.Unmarshal body with
      | None => Err ErrUnmarshal
      | Some result =>
          match response_fields original result with
          | Some _ => Ok tt
          | None => Panic PanicInterfaceConversion
          end
      end
  end.

(** What a received response comes to: the status check, then parsing. *)
Definition response_outcome (original : turso.Database) (resp : Response) : result unit :=
  if negb (StatusCode resp =? 200)%Z
  then Err (ErrFailedToCreateDatabase (Status resp))
  else parsing_outcome original resp.

(** The request [replicateCmd] sends for a source database and the
    settings stored for it. *)
Definition replicate_req (w : World) (flags : Flags) (name region : string)
    (c : settings.Settings) (original : turso.Database)
    (stored : settings.DatabaseSettings) : Request :=
  {| req_url := replicate_url (getHost w) name original;
     req_authorization := "Bearer " +:+ settings.token c;
     req_body := createDbReq name region (image_of (canary flags))
                   (settings.Password stored) |}.

(** ** The request body as JSON *)

(** A byte that may stand unescaped inside a JSON string literal: not the
    double quote, not the backslash, not a control character. *)
Definition plain_byte (c : ascii) : bool :=
  negb (Ascii.eqb c Fmt.dquote) && negb (Ascii.eqb c Fmt.backslash)
  && negb (nat_of_ascii c <? 32)%nat.

Fixpoint json_plain (s : string) : bool :=
  match s with
  | EmptyString => true
  | String c r => plain_byte c && json_plain r
  end.

(** [utf8.ValidString]: the string is a run of well-formed UTF-8
    sequences.  [expected] holds the ranges of the bytes still owed to the
    sequence under way. *)
Fixpoint utf8_valid_from (expected : list (nat * nat)) (s : string) : bool :=
  match s with
  | EmptyString => match expected with [] => true | _ => false end
  | String c r =>
      match expected with
      | (lo, hi) :: expected' => Json.between lo hi c && utf8_valid_from expected' r
      | [] =>
          if (nat_of_ascii c <? 128)%nat then utf8_valid_from [] r
          else
            match Json.utf8_tail c with
            | Some ranges => utf8_valid_from ranges r
            | None => false
            end
      end
  end.

Definition utf8_Valid (s : string) : bool := utf8_valid_from [] s.

(** Free of double quotes and backslashes. *)
Fixpoint no_quote_backslash (s : string) : bool :=
  match s with
  | EmptyString => true
  | String c r =>
      negb (Ascii.eqb c Fmt.dquote) && negb (Ascii.eqb c Fmt.backslash)
      && no_quote_backslash r
  end.

Fixpoint bytes_items (s : string) : list Json.item :=
  match s with
  | EmptyString => []
  | String c r => Json.IByte c :: bytes_items r
  end.

(** The JSON object with exactly the fields [name], [region], [image],
    [type] and [password]. *)
Definition request_object (name region image password : string) : Json.value :=
  Json.VMap [("name", Json.VStr name); ("region", Json.VStr region);
             ("image", Json.VStr image); ("type", Json.VStr "replica");
             ("password", Json.VStr password)].

(** ** Sample invocations *)

Definition demo_database (ty : string) : turso.Database :=
  {| turso.ID := "id1"; turso.Name := "app1"; turso.Type_ := ty;
     turso.Hostname := "app1.example"; turso.Regions := ["ams"] |}.

Definition demo_created (name region : string) : turso.CreateDatabaseResponse :=
  {| turso.Database_ :=
       {| turso.ID := "id2"; turso.Name := name; turso.Type_ := "primary";
          turso.Hostname := "new.example"; turso.Regions := [region] |};
     turso.Username := "u"; turso.Password := "p" |}.

Definition demo_world (regions : errorOr (list string))
    (dbs : errorOr (list turso.Database)) (pr : ProbeOutcome)
    (create inst del : option string) (resp : errorOr Response) : World :=
  {| ReadSettings_err := None;
     GetRegions := regions;
     Databases_List := dbs;
     Databases_Create := fun name region _ =>
       match create with
       | Some msg => Error msg
       | None => Value (demo_created name region)
       end;
     Instances_Create := fun _ _ _ _ => inst;
     Databases_Delete := fun _ => del;
     Databases_DeleteRegion := fun _ _ => del;
     Instances_Delete := fun _ _ => del;
     TURSO_API_BASEURL := "";
     codename_Generate := Value "brave-fox";
     probe := pr;
     http_NewRequest_err := fun _ => None;
     http_Do := fun _ => resp;
     elapsed_seconds := 3;
     emph := fun s => s;
     warn := fun s => s;
     promptConfirmation := fun _ => Value true;
     GetURL := fun d => "https://" +:+ settings.Host d;
     getDatabaseUrl := fun _ d => "https://" +:+ turso.Hostname d;
     getDatabaseRegions := fun _ => "ams" |}.

Definition demo_flags (region instance regionToDestroy : string) (yes : bool) : Flags :=
  {| canary := false; showUrlFlag := false; region := region; yesFlag := yes;
     instanceFlag := instance; regionFlag := regionToDestroy |}.

Definition demo_entry : settings.DatabaseSettings :=
  {| settings.Name := "app1"; settings.Host := "app1.example";
     settings.Username := "u0"; settings.Password := "pw" |}.

Definition demo_settings (cache : option (list string)) : settings.Settings :=
  {| settings.token := "tok"; settings.db_names_cache := cache;
     settings.databases := {[ "id1" := demo_entry ]} |}.

Definition bare_settings : settings.Settings :=
  {| settings.token := "tok"; settings.db_names_cache := None;
     settings.databases := ∅ |}.

Definition ok_response (status : Z) (text body : string) : errorOr Response :=
  Value {| StatusCode := status; Status := text; Body := Value body |}.

Definition logical_body : string :=
  Fmt.raw "{'instance':{'uuid':'i-1'},'username':'u','password':'p'}".

Definition physical_body : string :=
  Fmt.raw "{'database':{'DbId':'d-2','Hostname':'replica.example'},'username':'u','password':'p'}".

(** A world in which replicating [app1] reaches the control plane. *)
Definition replicate_world (ty : string) (status : Z) (text body : string) : World :=
  demo_world (Value ["ams"; "fra"]) (Value [demo_database ty])
    (ProbeDecoded {| Server := "fra" |}) None None None (ok_response status text body).

(** A world in which creating a database reaches the control plane. *)
Definition create_world (pr : ProbeOutcome) (create inst : option string) : World :=
  demo_world (Value ["ams"; "fra"]) (Value []) pr create inst None (Error "unused").

(** Arrays nested [n] deep: [n] opening brackets, then [n] closing ones. *)
Fixpoint brackets (n : nat) (c : ascii) (rest : string) : string :=
  match n with
  | O => rest
  | S n' => String c (brackets n' c rest)
  end.

Definition nested_arrays (n : N) : string :=
  brackets (N.to_nat n) "[" (brackets (N.to_nat n) "]" "").

Definition decodes (body : string) : bool :=
  match Json.Unmarshal body with
  | Some _ => true
  | None => false
  end.

(** ** Proof automation *)

(** Runs the primitives of the monad and the state projections, and
    nothing else (commands, strings and formats stay folded). *)
Ltac mprim :=
  cbv [run bind ret fail throw attempt emit get_config modify_config
       config trace fst snd
       ReadSettings GetToken GetDbNamesCache SetDbNamesCache
       InvalidateDbNamesCache AddDatabase GetDatabaseSettings
       Printf Println printTable index assert_map assert_string
       nth_error app] in *.

(** Runs the commands and their helpers as well. *)
Ltac mrun :=
  cbv [run bind ret fail throw attempt emit get_config modify_config
       config trace fst snd
       ReadSettings GetToken GetDbNamesCache SetDbNamesCache
       InvalidateDbNamesCache AddDatabase GetDatabaseSettings
       Printf Println printTable index assert_map assert_string
       nth_error app
       createCmd probeClosestRegion
       replicateCmd replicate_request replicate_response replicate_store
       destroyCmd destroyDatabase destroyDatabaseRegion destroyDatabaseInstance
       listCmd getDatabaseNames fetchDatabaseNames
       isValidRegion getRegionIds getAccessToken getDatabase getDatabases] in *.

(** Runs [replicateCmd] up to the response. *)
Ltac mrun_request :=
  cbv [run bind ret fail throw attempt emit get_config modify_config
       config trace fst snd
       ReadSettings GetToken GetDbNamesCache SetDbNamesCache
       InvalidateDbNamesCache AddDatabase GetDatabaseSettings
       Printf Println printTable index assert_map assert_string
       nth_error app
       replicateCmd replicate_request
       isValidRegion getRegionIds getAccessToken getDatabase getDatabases] in *.

(** Case analysis in program order: the outermost [match] whose scrutinee
    is itself free of [match]. *)
Ltac inner_case :=
  match goal with
  | |- context [match ?x with _ => _ end] =>
      lazymatch x with
      | context [match _ with _ => _ end] => fail
      | _ => destruct x eqn:?
      end
  end.

(** Membership in a computed list, one element at a time. *)
Ltac invert_in H :=
  repeat (apply elem_of_cons in H as [H|H]; [simplify_eq|]);
  try (by apply elem_of_nil in H).

(** Reads a computed trace. *)
Ltac observe :=
  cbn [requests writes printed cache_stores steps step_of settings_accesses
       database_creates instance_creates
       touches_settings omap list_omap List.filter] in *.

(** ** Shell completion: [destroyArgs] and [replicateArgs] *)

(** The completion directives the two functions return. *)
Inductive ShellCompDirective : Type :=
| ShellCompDirectiveDefault
| ShellCompDirectiveNoFileComp
| ShellCompDirectiveNoFileCompNoSpace.

Definition destroyArgs (w : World) (args : list string)
  : M (list string * ShellCompDirective) :=
  if (length args =? 0)%nat then
    names <- getDatabaseNames w ;; ret (names, ShellCompDirectiveNoFileComp)
  else ret ([], ShellCompDirectiveNoFileComp).

Definition replicateArgs (w : World) (args : list string)
  : M (list string * ShellCompDirective) :=
  if (length args =? 1)%nat then
    ids <- getRegionIds w ;; ret (ids, ShellCompDirectiveNoFileCompNoSpace)
  else if (length args =? 0)%nat then
    names <- getDatabaseNames w ;; ret (names, ShellCompDirectiveNoFileComp)
  else ret ([], ShellCompDirectiveNoFileComp).

(** ** [regionsCmd] *)

(** The line [regionsCmd] prints for one region. *)
Definition region_line (w : World) (defaultRegionId regionId : string) : string :=
  let suffix := if String.eqb regionId defaultRegionId then "  [default]" else "" in
  let line := Fmt.Sprintf "%s  %s%s" [regionId; toLocation regionId; suffix] in
  if String.eqb regionId defaultRegionId then emph w line else line.

(** The loop of [regionsCmd]. *)
Fixpoint regions_loop (w : World) (defaultRegionId : string) (regionIds : list string)
  : M unit :=
  match regionIds with
  | [] => ret tt
  | regionId :: rest =>
      Printf (lit "%s\n") [region_line w defaultRegionId regionId] ;;
      regions_loop w defaultRegionId rest
  end.

Definition regionsCmd (w : World) : M unit :=
  defaultRegionId <- probeClosestRegion w ;;
  Println "ID   LOCATION" ;;
  regionIds <- getRegionIds w ;;
  regions_loop w defaultRegionId regionIds.

(** ** [showCmd] *)

Module instance.

(** [turso.Instance], as far as [showCmd] reads it; [Type_] is the field
    [Type]. *)
Record Instance : Type := {
  Name : string;
  Type_ : string;
  Region : string
}.

End instance.

(** [strings.Join]. *)
Fixpoint strings_Join (elems : list string) (sep : string) : string :=
  match elems with
  | [] => ""
  | [e] => e
  | e :: rest => e +:+ sep +:+ strings_Join rest sep
  end.

(** [sort.Strings]: the strings in increasing byte-wise order.  The result
    of sorting does not depend on the algorithm; insertion is used here. *)
Fixpoint sort_insert (x : string) (sorted : list string) : list string :=
  match sorted with
  | [] => [x]
  | y :: rest => if String.leb x y then x :: sorted else y :: sort_insert x rest
  end.

Fixpoint sort_Strings (l : list string) : list string :=
  match l with
  | [] => []
  | x :: rest => sort_insert x (sort_Strings rest)
  end.

(** [fmt.Println] of several operands: spaces between them, a newline
    after. *)
Definition Println_operands (operands : list string) : M unit :=
  emit (EvPrint (strings_Join operands " " +:+ lit "\n")).

(** The two errors [showCmd] makes itself; the errors it forwards are
    those of [getDatabase] and [settings.ReadSettings]. *)
Inductive show_error : Type :=
| ErrOnlyLogicalShow
| ErrCouldNotGetInstances (name msg : string).

Definition show_error_message (e : show_error) : string :=
  match e with
  | ErrOnlyLogicalShow =>
      "only new databases, of type 'logical', support the show operation"
  | ErrCouldNotGetInstances name msg =>
      Fmt.Sprintf "could not get instances of database %s: %w" [name; msg]
  end.

(** [showCmd].  [Instances_List] is [client.Instances.List] and
    [getInstanceUrl] the helper of that name, both answered from outside
    the file.  An error made by [showCmd] itself is the returned
    [Some]; [None] is the nil error. *)
Definition showCmd (w : World)
    (Instances_List : string → errorOr (list instance.Instance))
    (getInstanceUrl : settings.Settings → turso.Database → instance.Instance → string)
    (flags : Flags) (args : list string) : M (option show_error) :=
  name <- index args 0 ;;
  db <- getDatabase w name ;;
  if negb (String.eqb (turso.Type_ db) "logical") then ret (Some ErrOnlyLogicalShow)
  else
    err <- ReadSettings w ;;
    match err with
    | Some msg => fail (ErrReadSettings msg)
    | None =>
        config <- get_config ;;
        if showUrlFlag flags then
          Println (getDatabaseUrl w config db) ;; ret None
        else
          match Instances_List (turso.Name db) with
          | Error msg => ret (Some (ErrCouldNotGetInstances (turso.Name db) msg))
          | Value instances =>
              let regions := sort_Strings (turso.Regions db) in
              Println_operands ["Name:    "; turso.Name db] ;;
              Println_operands ["URL:     "; getDatabaseUrl w config db] ;;
              Println_operands ["ID:      "; turso.ID db] ;;
              Println_operands ["Regions: "; strings_Join regions ", "] ;;
              Println_operands [] ;;
              let data :=
                map (fun i =>
                       [instance.Name i; instance.Type_ i; instance.Region i;
                        getInstanceUrl config db i])
                    instances in
              emit (EvPrint (lit "Database Instances:\n")) ;;
              printTable ["name"; "type"; "region"; "url"] data ;;
              ret None
          end
    end.

(** The region codes [toLocation] knows. *)
Definition known_regions : list string :=
  ["ams"; "cdg"; "den"; "dfw"; "ewr"; "fra"; "gru"; "hkg"; "iad"; "jnb"; "lax";
   "lhr"; "maa"; "mad"; "mia"; "nrt"; "ord"; "otp"; "scl"; "sea"; "sin"; "sjc";
   "syd"; "waw"; "yul"; "yyz"].

(** The region [createCmd] provisions in: the flag, or what the probe
    comes to. *)
Definition probed_region (w : World) : string :=
  match probe w with
  | ProbeDecoded reg =>
      if region_accepted w (Server reg) then Server reg else FallbackRegionId
  | _ => FallbackRegionId
  end.

Definition create_region (w : World) (flags : Flags) : string :=
  if String.eqb (region flags) "" then probed_region w else region flags.

(** The name [createCmd] uses: the argument, or the generated one. *)
Definition create_name (w : World) (args : list string) : errorOr string :=
  match args with
  | a :: _ => if String.eqb a "" then codename_Generate w else Value a
  | [] => codename_Generate w
  end.

(** The events that are a call to the control plane or to the network. *)
Definition is_remote (e : event) : bool :=
  match e with
  | EvGetRegions | EvDatabasesList | EvDatabasesCreate _ _ _
  | EvInstancesCreate _ _ _ _ | EvDatabasesDelete _ | EvDatabasesDeleteRegion _ _
  | EvInstancesDelete _ _ | EvHttpGet _ | EvHttpDo _ => true
  | _ => false
  end.

Definition remote_calls (t : list event) : list event := List.filter is_remote t.

(** A sample instance list for [showCmd]. *)
Definition demo_instances : string → errorOr (list instance.Instance) :=
  fun _ => Value [{| instance.Name := "i1"; instance.Type_ := "primary";
                     instance.Region := "ams" |}].

Definition demo_instance_url
  : settings.Settings → turso.Database → instance.Instance → string :=
  fun _ d i => "https://" +:+ instance.Name i +:+ "-" +:+ turso.Hostname d.

(** Runs the completion functions, [regionsCmd] and [showCmd] as well. *)
Ltac mrun_more :=
  cbv [destroyArgs replicateArgs regionsCmd showCmd Println_operands] in *; mrun.


(** * Properties *)

(** ** The region catalog and the region resolver *)

Lemma region_in_spec (region : string) (regionIds : list string) :
  region_in region regionIds = true ↔ region ∈ regionIds.
Proof.
  induction regionIds as [|regionId rest IH]; cbn [region_in].
  - split; [discriminate | by intros ?%elem_of_nil].
  - rewrite elem_of_cons. destruct (String.eqb_spec region regionId) as [->|Hne].
    + split; [by left | done].
    + rewrite IH. split; [by right | by intros [?|?]].
Qed.

Lemma isValidRegion_run (w : World) (region : string) (s : state) :
  isValidRegion w region s =
  (Ok (region_accepted w region),
   {| config := config s; trace := trace s ++ [EvGetRegions] |}).
Proof.
  unfold region_accepted, catalog. mrun. by destruct (GetRegions w) as [[|id ids]|msg].
Qed.

(** C7. Region validation: with an empty catalog, also the one a failed
    fetch leaves, every region is accepted; a region missing from a
    non-empty catalog is rejected, [db create --region] then fails with
    the invalid-region error and [db replicate] with its invalid-region
    error; a region in the catalog is always accepted. *)
Theorem region_validation (w : World) (requested : string) :
  ((GetRegions w = Value [] ∨ (∃ msg, GetRegions w = Error msg)) →
     ∀ s, (isValidRegion w requested s).1 = Ok true)
  ∧ (∀ ids, GetRegions w = Value ids → ids ≠ [] → requested ∉ ids →
       (∀ s, (isValidRegion w requested s).1 = Ok false)
       ∧ (∀ flags args c,
            ReadSettings_err w = None →
            (∃ a rest, args = a :: rest ∧ a ≠ "") ∨ (∃ n, codename_Generate w = Value n) →
            region flags = requested → requested ≠ "" →
            (run (createCmd w flags args) c).1 = Err (ErrRegionNotValid requested))
       ∧ (∀ flags name c,
            ReadSettings_err w = None → name ≠ "" → requested ≠ "" →
            (run (replicateCmd w flags [name; requested]) c).1 = Err ErrInvalidRegionID))
  ∧ (∀ ids, GetRegions w = Value ids → requested ∈ ids →
       ∀ s, (isValidRegion w requested s).1 = Ok true).
Proof.
  split; [|split].
  - intros Hempty s. rewrite isValidRegion_run. unfold region_accepted, catalog.
    by destruct Hempty as [->|[msg ->]].
  - intros ids Hids Hne Hnotin.
    assert (Hin : region_in requested ids = false).
    { apply not_true_iff_false. by rewrite region_in_spec. }
    assert (Hvalid : ∀ s, isValidRegion w requested s =
              (Ok false, {| config := config s; trace := trace s ++ [EvGetRegions] |})).
    { intros s. rewrite isValidRegion_run. unfold region_accepted, catalog. rewrite Hids.
      destruct ids; [done | by rewrite Hin]. }
    split; [|split].
    + intros s. by rewrite Hvalid.
    + intros flags args c Hread Hname Hflag Hregion.
      apply String.eqb_neq in Hregion.
      unfold createCmd. mprim. rewrite Hread, Hflag, Hregion. cbn [negb andb].
      destruct Hname as [(a & rest & -> & Ha)|[n Hn]].
      * apply String.eqb_neq in Ha. rewrite Ha. cbv beta iota. by rewrite Hvalid.
      * rewrite Hn.
        destruct args as [|a rest]; [|destruct (String.eqb a "")];
          cbv beta iota; by rewrite Hvalid.
    + intros flags name c Hread Hname Hregion.
      apply String.eqb_neq in Hname, Hregion.
      unfold replicateCmd. mprim. by rewrite Hread, Hname, Hregion, Hvalid.
  - intros ids Hids Hin s. rewrite isValidRegion_run. unfold region_accepted, catalog. rewrite Hids.
    apply region_in_spec in Hin. destruct ids; [done | by rewrite Hin].
Qed.

(** C7, on sample catalogs: an unreachable catalog, a region outside a
    catalog, and a region inside it. *)
Lemma region_validation_witness :
  (isValidRegion
     (demo_world (Error "unreachable") (Value []) (ProbeGetFailed "down")
        None None None (Error "unused"))
     "xyz" {| config := bare_settings; trace := [] |}).1 = Ok true
  ∧ (run (createCmd (create_world (ProbeGetFailed "down") None None)
            (demo_flags "xyz" "" "" false) ["db"]) bare_settings).1
    = Err (ErrRegionNotValid "xyz")
  ∧ (run (replicateCmd (create_world (ProbeGetFailed "down") None None)
            (demo_flags "" "" "" false) ["app1"; "xyz"]) bare_settings).1
    = Err ErrInvalidRegionID
  ∧ (isValidRegion (create_world (ProbeGetFailed "down") None None) "fra"
       {| config := bare_settings; trace := [] |}).1 = Ok true.
Proof.
  split; [|split; [|split]].
  - apply (proj1 (region_validation _ "xyz")). right. by eexists.
  - apply (proj1 (proj2 (region_validation _ "xyz")) ["ams"; "fra"]);
      [reflexivity | discriminate | compute_done | reflexivity
      | left; by exists "db", [] | reflexivity | discriminate].
  - apply (proj1 (proj2 (region_validation _ "xyz")) ["ams"; "fra"]);
      [reflexivity | discriminate | compute_done | reflexivity
      | discriminate | discriminate].
  - apply (proj2 (proj2 (region_validation _ "fra")) ["ams"; "fra"]);
      [reflexivity | compute_done].
Defined.

(** The probe never fails, whatever the network and the catalog answer. *)
Lemma probeClosestRegion_total (w : World) (s : state) :
  ∃ region, (probeClosestRegion w s).1 = Ok region.
Proof.
  unfold probeClosestRegion. mprim.
  destruct (probe w) as [msg|msg|reg]; [by eexists | by eexists |].
  rewrite isValidRegion_run. cbv beta iota.
  destruct (region_accepted w (Server reg)); by eexists.
Qed.

(** On each of the three failures the result is the fallback region. *)
Lemma probeClosestRegion_fallback (w : World) (s : state) :
  (∃ msg, probe w = ProbeGetFailed msg)
  ∨ (∃ msg, probe w = ProbeDecodeFailed msg)
  ∨ (∃ reg, probe w = ProbeDecoded reg ∧ catalog w ≠ [] ∧ Server reg ∉ catalog w) →
  (probeClosestRegion w s).1 = Ok FallbackRegionId.
Proof.
  unfold probeClosestRegion. mprim.
  intros [[msg ->]|[[msg ->]|(reg & -> & Hne & Hnotin)]]; [done | done |].
  rewrite isValidRegion_run. cbv beta iota. unfold region_accepted.
  destruct (catalog w) as [|id ids] eqn:Hcat; [done|].
  rewrite <- region_in_spec in Hnotin. apply not_true_is_false in Hnotin.
  by rewrite Hnotin.
Qed.

(** The warning is printed on the network failure and on no other path. *)
Lemma probeClosestRegion_warning (w : World) (c : settings.Settings) :
  printed (trace (run (probeClosestRegion w) c).2) =
  match probe w with
  | ProbeGetFailed _ => [Fmt.Sprintf (warn w FallbackWarning) []]
  | _ => []
  end.
Proof.
  unfold probeClosestRegion. mprim.
  destruct (probe w) as [msg|msg|reg]; [done | done |].
  rewrite isValidRegion_run. cbv beta iota.
  by destruct (region_accepted w (Server reg)).
Qed.

(** C4. The region probe on its three failures: after a body that does
    not decode, and after a probed region outside the catalog, the result
    is the fallback region and nothing is printed; only after a network
    failure is the warning printed. *)
Theorem probe_fallback_without_warning :
  (run (probeClosestRegion (create_world (ProbeDecodeFailed "bad json") None None))
     bare_settings).1 = Ok "ams"
  ∧ printed (trace (run (probeClosestRegion
                           (create_world (ProbeDecodeFailed "bad json") None None))
                      bare_settings).2) = []
  ∧ (run (probeClosestRegion
            (create_world (ProbeDecoded {| Server := "xyz" |}) None None))
       bare_settings).1 = Ok "ams"
  ∧ printed (trace (run (probeClosestRegion
                           (create_world (ProbeDecoded {| Server := "xyz" |}) None None))
                      bare_settings).2) = []
  ∧ (run (probeClosestRegion (create_world (ProbeGetFailed "down") None None))
       bare_settings).1 = Ok "ams"
  ∧ printed (trace (run (probeClosestRegion
                           (create_world (ProbeGetFailed "down") None None))
                      bare_settings).2) = [FallbackWarning].
Proof. repeat apply conj; vm_compute; reflexivity. Qed.

(** ** The name cache *)

Lemma extractDatabaseNames_spec (databases : list turso.Database) (name : string) :
  name ∈ extractDatabaseNames databases ↔
  ∃ database, database ∈ databases ∧ turso.Name database = name
              ∧ turso.Type_ database = "primary".
Proof.
  induction databases as [|d rest IH]; cbn [extractDatabaseNames].
  - split; [by intros ?%elem_of_nil | by intros (? & ?%elem_of_nil & _)].
  - destruct (String.eqb_spec (turso.Type_ d) "primary") as [Hty|Hty].
    + rewrite elem_of_cons, IH. split.
      * intros [->|(d' & Hin & Hn & Ht)]; [exists d | exists d'];
          rewrite elem_of_cons; auto.
      * intros (d' & [->|Hin]%elem_of_cons & Hn & Ht); [by left | right; eauto].
    + rewrite IH. split.
      * intros (d' & Hin & Hn & Ht). exists d'. rewrite elem_of_cons. auto.
      * intros (d' & [->|Hin]%elem_of_cons & Hn & Ht); [done | eauto].
Qed.

(** A hit returns the snapshot and touches nothing remote. *)
Lemma getDatabaseNames_hit (w : World) (c : settings.Settings) (names : list string) :
  ReadSettings_err w = None →
  settings.db_names_cache c = Some names →
  run (getDatabaseNames w) c =
  (Ok names, {| config := c; trace := [EvReadSettings; EvGetDbNamesCache] |}).
Proof. intros Hread Hc. mrun. unfold settings.GetDbNamesCache. by rewrite Hread, Hc. Qed.

(** A miss stores what [fetchDatabaseNames] returned: the primary names
    of a successful listing, and the empty list of a failed one. *)
Lemma getDatabaseNames_miss (w : World) (c : settings.Settings) :
  ReadSettings_err w = None →
  settings.db_names_cache c = None →
  let names := match Databases_List w with
               | Value databases => extractDatabaseNames databases
               | Error _ => []
               end in
  run (getDatabaseNames w) c =
  (Ok names,
   {| config := settings.SetDbNamesCache names c;
      trace := [EvReadSettings; EvGetDbNamesCache; EvDatabasesList;
                EvSetDbNamesCache names] |}).
Proof.
  intros Hread Hc. mrun. unfold settings.GetDbNamesCache. rewrite Hread, Hc.
  by destruct (Databases_List w).
Qed.

(** [db list] stores a snapshot only after a successful listing. *)
Lemma listCmd_cache (w : World) (c : settings.Settings) :
  cache_stores (trace (run (listCmd w) c).2) =
  match ReadSettings_err w, Databases_List w with
  | None, Value databases => [extractDatabaseNames databases]
  | _, _ => []
  end.
Proof.
  mrun. destruct (ReadSettings_err w); [done|].
  by destruct (Databases_List w).
Qed.

(** C2. The name cache after a failed listing: with no snapshot stored
    and the control plane unreachable, [getDatabaseNames] stores the empty
    list as the snapshot; the next invocation, with the control plane
    back and a primary database [app1] on it, is answered from the cache
    with no name and without a listing call. *)
Theorem getDatabaseNames_caches_failed_listing :
  run (getDatabaseNames
         (demo_world (Value ["ams"]) (Error "connection refused")
            (ProbeGetFailed "down") None None None (Error "unused")))
      bare_settings
  = (Ok [],
     {| config := settings.SetDbNamesCache [] bare_settings;
        trace := [EvReadSettings; EvGetDbNamesCache; EvDatabasesList;
                  EvSetDbNamesCache []] |})
  ∧ run (getDatabaseNames
           (demo_world (Value ["ams"]) (Value [demo_database "primary"])
              (ProbeGetFailed "down") None None None (Error "unused")))
        (settings.SetDbNamesCache [] bare_settings)
    = (Ok [],
       {| config := settings.SetDbNamesCache [] bare_settings;
          trace := [EvReadSettings; EvGetDbNamesCache] |})
  ∧ extractDatabaseNames [demo_database "primary"] = ["app1"].
Proof. repeat apply conj; vm_compute; reflexivity. Qed.

(** ** Replication *)

(** The untyped traversal succeeds exactly on the responses that hold the
    fields of their shape, and panics on every other decoded value. *)
Lemma replicate_finish_spec (w : World) (name regionText : string)
    (original : turso.Database) (result : Json.value) (s : state) :
  replicate_finish w name regionText original result s =
  match response_fields original result with
  | Some (id, d) =>
      replicate_store w name regionText id (settings.Host d)
        (settings.Username d) (settings.Password d) s
  | None => (Panic PanicInterfaceConversion, s)
  end.
Proof.
  unfold replicate_finish, response_fields, field.
  generalize (replicate_store w name regionText) as store. intros store.
  destruct (is_logical original);
    cbv [bind ret throw assert_map assert_string];
    repeat (case_match; simplify_eq; try reflexivity).
Qed.



Lemma response_fields_record (original : turso.Database) (result : Json.value)
    (id : string) (d : settings.DatabaseSettings) :
  response_fields original result = Some (id, d) →
  d = {| settings.Name := ""; settings.Host := settings.Host d;
         settings.Username := settings.Username d;
         settings.Password := settings.Password d |}.
Proof.
  unfold response_fields. intros H.
  repeat (case_match; simplify_eq); done.
Qed.





(** The end of a replication always succeeds. *)
Lemma replicate_store_ok (w : World) (name regionText id host username password : string)
    (s : state) :
  (replicate_store w name regionText id host username password s).1 = Ok tt.
Proof. by mrun. Qed.

(** The traversal never returns an error: it succeeds or it panics. *)
Lemma replicate_finish_no_error (w : World) (name regionText : string)
    (original : turso.Database) (result : Json.value) (s : state) (e : error) :
  (replicate_finish w name regionText original result s).1 ≠ Err e.
Proof.
  rewrite replicate_finish_spec.
  destruct (response_fields original result) as [[id d]|]; [|done].
  by rewrite replicate_store_ok.
Qed.

(** Case analysis over one run of [replicateCmd]: each step destructs the
    next answer of the world and runs on. *)
Ltac replicate_cases :=
  repeat (rewrite ?replicate_finish_spec; inner_case; simplify_eq; mrun).

(** A successful replication, read backwards: every check passed, and the
    response held the fields of its shape. *)
Lemma replicateCmd_ok (w : World) (flags : Flags) (name region : string)
    (c : settings.Settings) (st : state) :
  run (replicateCmd w flags [name; region]) c = (Ok tt, st) →
  ∃ dbs original stored resp body result id d,
    Databases_List w = Value dbs
    ∧ find_database dbs name = Some original
    ∧ settings.databases c !! turso.ID original = Some stored
    ∧ http_Do w (replicate_req w flags name region c original stored) = Value resp
    ∧ StatusCode resp = 200%Z
    ∧ Body resp = Value body
    ∧ Json.Unmarshal body = Some result
    ∧ response_fields original result = Some (id, d)
    ∧ requests (trace st) = [replicate_req w flags name region c original stored]
    ∧ writes (trace st) = [(id, d)]
    ∧ steps (trace st) = [LocalSettingsWrite; CacheInvalidate]
    ∧ config st = settings.InvalidateDbNamesCache (settings.AddDatabase id d c).
Proof.
  mrun. replicate_cases; try discriminate.
  all: intros [= <- <-];
    match goal with
    | H : response_fields _ _ = Some _ |- _ =>
        rewrite <- (response_fields_record _ _ _ _ H)
    end;
    match goal with
    | H : negb (_ =? 200)%Z = false |- _ =>
        apply negb_false_iff, Z.eqb_eq in H
    end;
    eexists _, _, _, _, _, _, _, _; repeat apply conj; try eassumption; reflexivity.
Qed.

(** A run that sends a request, read backwards: the request is the one
    built from the source database and the settings stored under its ID,
    it is the only one, and the outcome is decided by the answer to it. *)
Lemma replicateCmd_sent (w : World) (flags : Flags) (name region : string)
    (c : settings.Settings) (res : result unit) (st : state) (req : Request) :
  run (replicateCmd w flags [name; region]) c = (res, st) →
  req ∈ requests (trace st) →
  ∃ dbs original stored,
    Databases_List w = Value dbs
    ∧ find_database dbs name = Some original
    ∧ settings.databases c !! turso.ID original = Some stored
    ∧ req = replicate_req w flags name region c original stored
    ∧ requests (trace st) = [req]
    ∧ res = match http_Do w req with
            | Error msg => Err (ErrDo msg)
            | Value resp => response_outcome original resp
            end.
Proof.
  destruct st as [cfg tr]. mrun.
  replicate_cases; intros [= <- <- <-]; observe;
    try (by intros ?%elem_of_nil);
    intros ->%list_elem_of_singleton;
    eexists _, _, _; (repeat apply conj; try eassumption; try reflexivity);
    unfold replicate_req, response_outcome, parsing_outcome, settings.GetToken,
      settings.GetDatabaseSettings in *;
    repeat (case_match; simplify_eq); congruence.
Qed.



(** The two sample replications succeed and write the entries the
    specification's scenario names. *)
Lemma replicate_samples :
  (run (replicateCmd (replicate_world "logical" 200 "200 OK" logical_body)
          (demo_flags "" "" "" false) ["app1"; "fra"]) (demo_settings None)).1 = Ok tt
  ∧ writes (trace (run (replicateCmd (replicate_world "logical" 200 "200 OK" logical_body)
          (demo_flags "" "" "" false) ["app1"; "fra"]) (demo_settings None)).2)
    = [("i-1", {| settings.Name := ""; settings.Host := "app1.example";
                  settings.Username := "u"; settings.Password := "p" |})]
  ∧ writes (trace (run (replicateCmd (replicate_world "primary" 200 "200 OK" physical_body)
          (demo_flags "" "" "" false) ["app1"; "fra"]) (demo_settings None)).2)
    = [("d-2", {| settings.Name := ""; settings.Host := "replica.example";
                  settings.Username := "u"; settings.Password := "p" |})].
Proof. repeat apply conj; vm_compute; reflexivity. Qed.

(** A response with status 200 whose decoded body lacks a field of the
    shape of the source database, or holds it with another type, makes
    the command panic. *)
Lemma replicateCmd_malformed (w : World) (flags : Flags) (name region : string)
    (c : settings.Settings) (req : Request) (resp : Response) (body : string)
    (result : Json.value) :
  req ∈ requests (trace (run (replicateCmd w flags [name; region]) c).2) →
  http_Do w req = Value resp →
  StatusCode resp = 200%Z →
  Body resp = Value body →
  Json.Unmarshal body = Some result →
  (∀ dbs original,
     Databases_List w = Value dbs → find_database dbs name = Some original →
     response_fields original result = None) →
  (run (replicateCmd w flags [name; region]) c).1 = Panic PanicInterfaceConversion.
Proof.
  intros Hreq Hdo Hstatus Hbody Hjson Hnone.
  destruct (run (replicateCmd w flags [name; region]) c) as [res st] eqn:Hrun.
  destruct (replicateCmd_sent _ _ _ _ _ _ _ _ Hrun Hreq)
    as (dbs & original & stored & Hlist & Hfind & _ & _ & _ & ->).
  rewrite Hdo. unfold response_outcome, parsing_outcome.
  by rewrite Hstatus, Hbody, Hjson, (Hnone dbs original Hlist Hfind).
Qed.

(** C3. Parsing of a response that lacks a field: for the source of type
    [logical], a body with [username] and [password] but no [instance]
    object, and a body whose [uuid] is a number, make the command panic;
    so does, for the source of type [primary], a body whose [database]
    object has no [Hostname].  No error is returned and nothing is
    written. *)
Theorem replicate_malformed_response_panics :
  run (replicateCmd
         (replicate_world "logical" 200 "200 OK" (Fmt.raw "{'username':'u','password':'p'}"))
         (demo_flags "" "" "" false) ["app1"; "fra"]) (demo_settings None)
  = (Panic PanicInterfaceConversion,
     {| config := demo_settings None;
        trace := [EvReadSettings; EvGetRegions; EvReadSettings; EvGetToken;
                  EvDatabasesList; EvGetDatabaseSettings "id1";
                  EvHttpNewRequest "POST"
                    "https://api.chiseledge.com/v2/databases/app1/instances"
                    (createDbReq "app1" "fra" "latest" "pw");
                  EvHttpDo
                    {| req_url := "https://api.chiseledge.com/v2/databases/app1/instances";
                       req_authorization := "Bearer tok";
                       req_body := createDbReq "app1" "fra" "latest" "pw" |}] |})
  ∧ (run (replicateCmd
            (replicate_world "logical" 200 "200 OK"
               (Fmt.raw "{'instance':{'uuid':7},'username':'u','password':'p'}"))
            (demo_flags "" "" "" false) ["app1"; "fra"]) (demo_settings None)).1
    = Panic PanicInterfaceConversion
  ∧ (run (replicateCmd
            (replicate_world "primary" 200 "200 OK"
               (Fmt.raw "{'database':{'DbId':'d-2'},'username':'u','password':'p'}"))
            (demo_flags "" "" "" false) ["app1"; "fra"]) (demo_settings None)).1
    = Panic PanicInterfaceConversion.
Proof. repeat apply conj; vm_compute; reflexivity. Qed.

(** C6, as stated, fails: the status 201 is a 2xx status, the body is
    the well-formed response of a logical replication, and the command
    fails with the status error instead of parsing it. *)
Lemma replicate_rejects_status_201 :
  (200 ≤ 201 < 300)%Z
  ∧ (run (replicateCmd (replicate_world "logical" 201 "201 Created" logical_body)
            (demo_flags "" "" "" false) ["app1"; "fra"]) (demo_settings None)).1
    = Err (ErrFailedToCreateDatabase "201 Created")
  ∧ parsing_outcome (demo_database "logical")
      {| StatusCode := 201; Status := "201 Created"; Body := Value logical_body |}
    = Ok tt.
Proof. split; [lia|]. split; vm_compute; reflexivity. Qed.

Lemma parsing_outcome_not_status (original : turso.Database) (resp : Response)
    (status : string) :
  parsing_outcome original resp ≠ Err (ErrFailedToCreateDatabase status).
Proof. unfold parsing_outcome. by repeat case_match. Qed.

(** C6, amended. Status handling of replication: for every invocation
    that receives a response to its request, the command fails with the
    status error, carrying the status text, exactly when the status code
    is not 200; with the status code 200, and with no other, it goes on to
    parse the response. *)
Theorem replicate_status_handling (w : World) (flags : Flags) (name region : string)
    (c : settings.Settings) (req : Request) (resp : Response) :
  req ∈ requests (trace (run (replicateCmd w flags [name; region]) c).2) →
  http_Do w req = Value resp →
  ((run (replicateCmd w flags [name; region]) c).1
     = Err (ErrFailedToCreateDatabase (Status resp))
   ↔ StatusCode resp ≠ 200%Z)
  ∧ (StatusCode resp = 200%Z →
     ∃ dbs original,
       Databases_List w = Value dbs
       ∧ find_database dbs name = Some original
       ∧ (run (replicateCmd w flags [name; region]) c).1 = parsing_outcome original resp).
Proof.
  intros Hreq Hdo.
  destruct (run (replicateCmd w flags [name; region]) c) as [res st] eqn:Hrun.
  destruct (replicateCmd_sent _ _ _ _ _ _ _ _ Hrun Hreq)
    as (dbs & original & stored & Hl & Hf & _ & _ & _ & ->).
  rewrite Hdo. cbn [fst]. unfold response_outcome.
  destruct (Z.eqb_spec (StatusCode resp) 200) as [H200|H200]; cbn [negb].
  - split.
    + split; [|done]. by intros ?%parsing_outcome_not_status.
    + intros _. by exists dbs, original.
  - split; [done|]. by intros ?.
Qed.

(** C6, amended, on a sample replication answered with the status 404. *)
Lemma replicate_status_handling_witness :
  (run (replicateCmd (replicate_world "logical" 404 "404 Not Found" logical_body)
          (demo_flags "" "" "" false) ["app1"; "fra"]) (demo_settings None)).1
  = Err (ErrFailedToCreateDatabase "404 Not Found").
Proof.
  apply (replicate_status_handling
           (replicate_world "logical" 404 "404 Not Found" logical_body)
           (demo_flags "" "" "" false) "app1" "fra" (demo_settings None)
           (replicate_req (replicate_world "logical" 404 "404 Not Found" logical_body)
              (demo_flags "" "" "" false) "app1" "fra" (demo_settings None)
              (demo_database "logical") demo_entry)
           {| StatusCode := 404; Status := "404 Not Found"; Body := Value logical_body |}).
  - vm_compute. apply list_elem_of_here.
  - reflexivity.
  - discriminate.
Defined.

(** Up to the lookup of the stored settings, a replication whose checks
    pass runs the same way whatever the store holds for the source. *)
Lemma replicateCmd_missing_settings (w : World) (flags : Flags) (name region : string)
    (c : settings.Settings) (dbs : list turso.Database) (original : turso.Database) :
  ReadSettings_err w = None →
  name ≠ "" → region ≠ "" →
  (catalog w = [] ∨ region ∈ catalog w) →
  settings.token c ≠ "" →
  Databases_List w = Value dbs →
  find_database dbs name = Some original →
  settings.databases c !! turso.ID original = None →
  run (replicateCmd w flags [name; region]) c =
  (Panic PanicNilDereference,
   {| config := c;
      trace := [EvReadSettings; EvGetRegions; EvReadSettings; EvGetToken;
                EvDatabasesList; EvGetDatabaseSettings (turso.ID original)] |}).
Proof.
  intros Hread Hname%String.eqb_neq Hregion%String.eqb_neq Hcat Htoken%String.eqb_neq
    Hlist Hfind Hnone.
  unfold replicateCmd, replicate_request, getAccessToken, getDatabase, getDatabases.
  mprim. rewrite Hread, Hname, Hregion, isValidRegion_run. cbv beta iota.
  assert (Hacc : region_accepted w region = true).
  { unfold region_accepted. destruct Hcat as [->|Hin]; [done|].
    apply region_in_spec in Hin. by destruct (catalog w). }
  rewrite Hacc. cbn [negb]. mprim. unfold settings.GetToken, settings.GetDatabaseSettings.
  by rewrite Htoken, Hlist, Hfind, Hnone.
Qed.

(** C9. Replication without local settings for the source: when every
    check passes and the source database is found, but the local store
    holds no entry under the source's remote ID, reading the password of
    the absent entry panics; no error is returned, no request is sent and
    the settings stay as they were. *)
Theorem replicate_missing_settings_panics (w : World) (flags : Flags)
    (name region : string) (c : settings.Settings) (dbs : list turso.Database)
    (original : turso.Database) :
  ReadSettings_err w = None →
  name ≠ "" → region ≠ "" →
  (catalog w = [] ∨ region ∈ catalog w) →
  settings.token c ≠ "" →
  Databases_List w = Value dbs →
  find_database dbs name = Some original →
  settings.databases c !! turso.ID original = None →
  (run (replicateCmd w flags [name; region]) c).1 = Panic PanicNilDereference
  ∧ last (trace (run (replicateCmd w flags [name; region]) c).2)
    = Some (EvGetDatabaseSettings (turso.ID original))
  ∧ requests (trace (run (replicateCmd w flags [name; region]) c).2) = []
  ∧ config (run (replicateCmd w flags [name; region]) c).2 = c.
Proof.
  intros Hread Hname Hregion Hcat Htoken Hlist Hfind Hnone.
  by rewrite (replicateCmd_missing_settings w flags name region c dbs original).
Qed.

(** C9, on a sample replication of [app1] from a machine whose settings
    hold no database. *)
Lemma replicate_missing_settings_witness :
  (run (replicateCmd (replicate_world "logical" 200 "200 OK" logical_body)
          (demo_flags "" "" "" false) ["app1"; "fra"]) bare_settings).1
  = Panic PanicNilDereference.
Proof.
  apply (replicate_missing_settings_panics
           (replicate_world "logical" 200 "200 OK" logical_body)
           (demo_flags "" "" "" false) "app1" "fra" bare_settings
           [demo_database "logical"] (demo_database "logical"));
    [reflexivity | discriminate | discriminate | right; compute_done
    | discriminate | reflexivity | reflexivity | reflexivity].
Defined.

(** A successful replication leaves the name cache absent and the new
    entry in the local settings. *)
Lemma replicateCmd_ok_settings (w : World) (flags : Flags) (name region : string)
    (c : settings.Settings) (st : state) :
  run (replicateCmd w flags [name; region]) c = (Ok tt, st) →
  settings.db_names_cache (config st) = None
  ∧ ∃ id d, writes (trace st) = [(id, d)] ∧ settings.databases (config st) !! id = Some d.
Proof.
  intros Hrun.
  destruct (replicateCmd_ok _ _ _ _ _ _ Hrun)
    as (dbs & original & stored & resp & body & result & id & d & _ & _ & _
        & _ & _ & _ & _ & _ & _ & Hwrites & _ & ->).
  split; [reflexivity|]. exists id, d. split; [done|]. cbn. apply lookup_insert_eq.
Qed.

(** With an entry stored under the source's ID, that panic does not
    occur. *)
Lemma replicate_with_settings_no_nil_panic (w : World) (flags : Flags)
    (name region : string) (c : settings.Settings) :
  (run (replicateCmd w flags [name; region]) c).1 = Panic PanicNilDereference →
  ∃ dbs original,
    Databases_List w = Value dbs ∧ find_database dbs name = Some original
    ∧ settings.databases c !! turso.ID original = None.
Proof.
  destruct (run (replicateCmd w flags [name; region]) c) as [res [cfg tr]] eqn:Hrun.
  cbn [fst]. intros ->. revert Hrun. mrun.
  replicate_cases; try discriminate; intros _; eexists _, _; eauto.
Qed.

(** ** Creation *)

Ltac create_cases := repeat (inner_case; simplify_eq; mrun).

Ltac create_prefix_cases :=
  unfold createCmd, probeClosestRegion; mprim;
  repeat (rewrite ?isValidRegion_run; inner_case; simplify_eq; mprim).

Ltac settle_create :=
  unfold create_name, create_region, probed_region in *;
  repeat (case_match; simplify_eq); try done; try congruence.

Lemma append_empty_r (s : string) : s +:+ "" = s.
Proof. induction s as [|ch r IH]; [done|]. change (String ch (r +:+ "") = String ch r). by rewrite IH. Qed.

(** The message of the instance-creation error names the database. *)
Lemma instance_error_message (w : World) (name msg : string) :
  error_message w (ErrFailedToCreateInstance name msg)
  = Some ("failed to create instance for database " +:+ name +:+ ": " +:+ msg).
Proof.
  cbn [error_message]. f_equal.
  transitivity ("failed to create instance for database " +:+ name +:+ ": " +:+ msg +:+ "");
    [reflexivity | by rewrite append_empty_r].
Qed.

(** The steps of [db create] are an initial segment of the four, all
    four exactly on success; a failed remote call ends the command. *)
Lemma createCmd_order (w : World) (flags : Flags) (args : list string)
    (c : settings.Settings) :
  steps (trace (run (createCmd w flags args) c).2)
    `prefix_of` [RemoteDatabaseCreate; RemoteInstanceCreate;
                 LocalSettingsWrite; CacheInvalidate]
  ∧ ((run (createCmd w flags args) c).1 = Ok tt ↔
     steps (trace (run (createCmd w flags args) c).2)
     = [RemoteDatabaseCreate; RemoteInstanceCreate; LocalSettingsWrite; CacheInvalidate])
  ∧ (∀ name region image msg,
       (name, region, image) ∈ database_creates (trace (run (createCmd w flags args) c).2) →
       Databases_Create w name region image = Error msg →
       (run (createCmd w flags args) c).1 = Err (ErrCouldNotCreateDatabase name msg)
       ∧ steps (trace (run (createCmd w flags args) c).2) = [RemoteDatabaseCreate]
       ∧ config (run (createCmd w flags args) c).2 = c)
  ∧ (∀ name password region image msg,
       (name, password, region, image)
         ∈ instance_creates (trace (run (createCmd w flags args) c).2) →
       Instances_Create w name password region image = Some msg →
       (run (createCmd w flags args) c).1 = Err (ErrFailedToCreateInstance name msg)
       ∧ error_message w (ErrFailedToCreateInstance name msg)
         = Some ("failed to create instance for database " +:+ name +:+ ": " +:+ msg)
       ∧ database_creates (trace (run (createCmd w flags args) c).2)
         = [(name, region, image)]
       ∧ (∃ created, Databases_Create w name region image = Value created)
       ∧ steps (trace (run (createCmd w flags args) c).2)
         = [RemoteDatabaseCreate; RemoteInstanceCreate]
       ∧ config (run (createCmd w flags args) c).2 = c).
Proof.
  destruct (run (createCmd w flags args) c) as [res [cfg tr]] eqn:Hrun.
  cbn [fst snd config trace]. revert Hrun. mrun.
  create_cases; intros [= <- <- <-]; observe.
  all: split; [by eexists|].
  all: split; [split; [done|discriminate || done]|].
  all: split; [intros n r i m Hin Herr | intros n p r i m Hin Herr].
  all: invert_in Hin.
  all: repeat apply conj; try reflexivity; try congruence;
    try apply instance_error_message; by eexists.
Qed.

(** The database creation is reached once the settings are read, the
    name is there and the region passes. *)
Lemma createCmd_reaches_create (w : World) (flags : Flags) (args : list string)
    (c : settings.Settings) (name : string) :
  ReadSettings_err w = None →
  create_name w args = Value name →
  region flags = "" ∨ region_accepted w (region flags) = true →
  database_creates (trace (run (createCmd w flags args) c).2)
  = [(name, create_region w flags, image_of (canary flags))].
Proof.
  intros Hs Hn Hr.
  destruct (run (createCmd w flags args) c) as [res [cfg tr]] eqn:Hrun.
  cbn [fst snd config trace]. revert Hrun.
  create_prefix_cases; intros [= <- <- <-]; observe.
  all: destruct Hr as [Hr|Hr]; settle_create.
  all: exfalso.
  all: try (match goal with H : (region _ =? "") = false |- _ =>
              apply String.eqb_neq in H; done end).
  all: match goal with H : context [region_accepted] |- _ => by rewrite Hr in H end.
Qed.

(** A created database is followed by the creation of its instance, with
    the password the creation returned. *)
Lemma createCmd_then_instance (w : World) (flags : Flags) (args : list string)
    (c : settings.Settings) (name region image : string)
    (created : turso.CreateDatabaseResponse) :
  (name, region, image) ∈ database_creates (trace (run (createCmd w flags args) c).2) →
  Databases_Create w name region image = Value created →
  instance_creates (trace (run (createCmd w flags args) c).2)
  = [(name, turso.Password created, region, image)].
Proof.
  destruct (run (createCmd w flags args) c) as [res [cfg tr]] eqn:Hrun.
  cbn [fst snd config trace]. revert Hrun.
  create_prefix_cases; intros [= <- <- <-]; observe.
  all: intros Hin Hc; invert_in Hin; congruence.
Qed.

(** A created instance is followed by the settings write and by the
    invalidation of the name cache, and the command succeeds. *)
Lemma createCmd_then_write (w : World) (flags : Flags) (args : list string)
    (c : settings.Settings) (name password region image : string) :
  (name, password, region, image)
    ∈ instance_creates (trace (run (createCmd w flags args) c).2) →
  Instances_Create w name password region image = None →
  ∃ created,
    Databases_Create w name region image = Value created
    ∧ password = turso.Password created
    ∧ (run (createCmd w flags args) c).1 = Ok tt
    ∧ steps (trace (run (createCmd w flags args) c).2)
      = [RemoteDatabaseCreate; RemoteInstanceCreate; LocalSettingsWrite; CacheInvalidate]
    ∧ writes (trace (run (createCmd w flags args) c).2)
      = [(turso.ID (turso.Database_ created),
          {| settings.Name := turso.Name (turso.Database_ created);
             settings.Host := turso.Hostname (turso.Database_ created);
             settings.Username := turso.Username created;
             settings.Password := turso.Password created |})]
    ∧ config (run (createCmd w flags args) c).2
      = settings.InvalidateDbNamesCache
          (settings.AddDatabase (turso.ID (turso.Database_ created))
             {| settings.Name := turso.Name (turso.Database_ created);
                settings.Host := turso.Hostname (turso.Database_ created);
                settings.Username := turso.Username created;
                settings.Password := turso.Password created |} c).
Proof.
  destruct (run (createCmd w flags args) c) as [res [cfg tr]] eqn:Hrun.
  cbn [fst snd config trace]. revert Hrun.
  create_prefix_cases; intros [= <- <- <-]; observe.
  all: intros Hin Hc; invert_in Hin; try congruence.
  all: eexists; split; [eassumption|]; by repeat split.
Qed.

(** C5. Order and abort of [db create]: the steps that change remote or
    local state are an initial segment of: remote database create, remote
    instance create, local settings write, cache invalidation; all four
    are there exactly on success.  Each step that succeeds is followed
    by the next: with the settings read, a name and a region that passes,
    the database creation is asked for; a created database is followed by
    the creation of its instance; a created instance is followed by the
    settings write and then the cache invalidation, the command succeeds,
    and the settings end as the old ones with the new entry added and the
    name cache cleared.  Each step that fails ends the command: when the
    database creation fails, nothing follows it; when the instance
    creation fails, the database had been created, the error names that
    database, no removal is asked for, and the local settings and the
    name cache are as they were. *)
Theorem create_order_and_abort (w : World) (flags : Flags) (args : list string)
    (c : settings.Settings) :
  steps (trace (run (createCmd w flags args) c).2)
    `prefix_of` [RemoteDatabaseCreate; RemoteInstanceCreate;
                 LocalSettingsWrite; CacheInvalidate]
  ∧ ((run (createCmd w flags args) c).1 = Ok tt ↔
     steps (trace (run (createCmd w flags args) c).2)
     = [RemoteDatabaseCreate; RemoteInstanceCreate; LocalSettingsWrite; CacheInvalidate])
  ∧ (∀ name,
       ReadSettings_err w = None →
       create_name w args = Value name →
       region flags = "" ∨ region_accepted w (region flags) = true →
       database_creates (trace (run (createCmd w flags args) c).2)
       = [(name, create_region w flags, image_of (canary flags))])
  ∧ (∀ name region image msg,
       (name, region, image) ∈ database_creates (trace (run (createCmd w flags args) c).2) →
       Databases_Create w name region image = Error msg →
       (run (createCmd w flags args) c).1 = Err (ErrCouldNotCreateDatabase name msg)
       ∧ steps (trace (run (createCmd w flags args) c).2) = [RemoteDatabaseCreate]
       ∧ config (run (createCmd w flags args) c).2 = c)
  ∧ (∀ name region image created,
       (name, region, image) ∈ database_creates (trace (run (createCmd w flags args) c).2) →
       Databases_Create w name region image = Value created →
       instance_creates (trace (run (createCmd w flags args) c).2)
       = [(name, turso.Password created, region, image)])
  ∧ (∀ name password region image msg,
       (name, password, region, image)
         ∈ instance_creates (trace (run (createCmd w flags args) c).2) →
       Instances_Create w name password region image = Some msg →
       (run (createCmd w flags args) c).1 = Err (ErrFailedToCreateInstance name msg)
       ∧ error_message w (ErrFailedToCreateInstance name msg)
         = Some ("failed to create instance for database " +:+ name +:+ ": " +:+ msg)
       ∧ database_creates (trace (run (createCmd w flags args) c).2)
         = [(name, region, image)]
       ∧ (∃ created, Databases_Create w name region image = Value created)
       ∧ steps (trace (run (createCmd w flags args) c).2)
         = [RemoteDatabaseCreate; RemoteInstanceCreate]
       ∧ config (run (createCmd w flags args) c).2 = c)
  ∧ (∀ name password region image,
       (name, password, region, image)
         ∈ instance_creates (trace (run (createCmd w flags args) c).2) →
       Instances_Create w name password region image = None →
       ∃ created,
         Databases_Create w name region image = Value created
         ∧ password = turso.Password created
         ∧ (run (createCmd w flags args) c).1 = Ok tt
         ∧ steps (trace (run (createCmd w flags args) c).2)
           = [RemoteDatabaseCreate; RemoteInstanceCreate;
              LocalSettingsWrite; CacheInvalidate]
         ∧ writes (trace (run (createCmd w flags args) c).2)
           = [(turso.ID (turso.Database_ created),
               {| settings.Name := turso.Name (turso.Database_ created);
                  settings.Host := turso.Hostname (turso.Database_ created);
                  settings.Username := turso.Username created;
                  settings.Password := turso.Password created |})]
         ∧ config (run (createCmd w flags args) c).2
           = settings.InvalidateDbNamesCache
               (settings.AddDatabase (turso.ID (turso.Database_ created))
                  {| settings.Name := turso.Name (turso.Database_ created);
                     settings.Host := turso.Hostname (turso.Database_ created);
                     settings.Username := turso.Username created;
                     settings.Password := turso.Password created |} c)).
Proof.
  destruct (createCmd_order w flags args c) as (Hprefix & Hok & Hdb & Hinst).
  split; [exact Hprefix|]. split; [exact Hok|].
  split; [intros name; apply createCmd_reaches_create|].
  split; [exact Hdb|].
  split; [intros name region image created; apply createCmd_then_instance|].
  split; [exact Hinst|].
  intros name password region image. apply createCmd_then_write.
Qed.

(** C5, on a sample creation whose instance creation fails, and on one
    that succeeds. *)
Lemma create_order_and_abort_witness :
  ((run (createCmd (create_world (ProbeDecoded {| Server := "fra" |}) None (Some "quota"))
           (demo_flags "" "" "" false) ["db"]) (demo_settings (Some ["app1"]))).1
   = Err (ErrFailedToCreateInstance "db" "quota")
   ∧ error_message (create_world (ProbeDecoded {| Server := "fra" |}) None (Some "quota"))
       (ErrFailedToCreateInstance "db" "quota")
     = Some ("failed to create instance for database " +:+ "db" +:+ ": " +:+ "quota")
   ∧ database_creates (trace (run (createCmd
         (create_world (ProbeDecoded {| Server := "fra" |}) None (Some "quota"))
         (demo_flags "" "" "" false) ["db"]) (demo_settings (Some ["app1"]))).2)
     = [("db", "fra", "latest")]
   ∧ (∃ created,
        Databases_Create (create_world (ProbeDecoded {| Server := "fra" |}) None (Some "quota"))
          "db" "fra" "latest" = Value created)
   ∧ steps (trace (run (createCmd
         (create_world (ProbeDecoded {| Server := "fra" |}) None (Some "quota"))
         (demo_flags "" "" "" false) ["db"]) (demo_settings (Some ["app1"]))).2)
     = [RemoteDatabaseCreate; RemoteInstanceCreate]
   ∧ config (run (createCmd
         (create_world (ProbeDecoded {| Server := "fra" |}) None (Some "quota"))
         (demo_flags "" "" "" false) ["db"]) (demo_settings (Some ["app1"]))).2
     = demo_settings (Some ["app1"]))
  ∧ (∃ created,
       Databases_Create (create_world (ProbeDecoded {| Server := "fra" |}) None None)
         "db" "fra" "latest" = Value created
       ∧ "p" = turso.Password created
       ∧ (run (createCmd (create_world (ProbeDecoded {| Server := "fra" |}) None None)
                 (demo_flags "" "" "" false) ["db"]) (demo_settings (Some ["app1"]))).1
         = Ok tt
       ∧ steps (trace (run (createCmd
             (create_world (ProbeDecoded {| Server := "fra" |}) None None)
             (demo_flags "" "" "" false) ["db"]) (demo_settings (Some ["app1"]))).2)
         = [RemoteDatabaseCreate; RemoteInstanceCreate; LocalSettingsWrite; CacheInvalidate]
       ∧ writes (trace (run (createCmd
             (create_world (ProbeDecoded {| Server := "fra" |}) None None)
             (demo_flags "" "" "" false) ["db"]) (demo_settings (Some ["app1"]))).2)
         = [(turso.ID (turso.Database_ created),
             {| settings.Name := turso.Name (turso.Database_ created);
                settings.Host := turso.Hostname (turso.Database_ created);
                settings.Username := turso.Username created;
                settings.Password := turso.Password created |})]
       ∧ config (run (createCmd
             (create_world (ProbeDecoded {| Server := "fra" |}) None None)
             (demo_flags "" "" "" false) ["db"]) (demo_settings (Some ["app1"]))).2
         = settings.InvalidateDbNamesCache
             (settings.AddDatabase (turso.ID (turso.Database_ created))
                {| settings.Name := turso.Name (turso.Database_ created);
                   settings.Host := turso.Hostname (turso.Database_ created);
                   settings.Username := turso.Username created;
                   settings.Password := turso.Password created |}
                (demo_settings (Some ["app1"])))).
Proof.
  split.
  - apply (proj1 (proj2 (proj2 (proj2 (proj2 (proj2 (create_order_and_abort
             (create_world (ProbeDecoded {| Server := "fra" |}) None (Some "quota"))
             (demo_flags "" "" "" false) ["db"] (demo_settings (Some ["app1"]))))))))
             "db" "p" "fra" "latest" "quota").
    + vm_compute. apply list_elem_of_here.
    + reflexivity.
  - apply (proj2 (proj2 (proj2 (proj2 (proj2 (proj2 (create_order_and_abort
             (create_world (ProbeDecoded {| Server := "fra" |}) None None)
             (demo_flags "" "" "" false) ["db"] (demo_settings (Some ["app1"]))))))))
             "db" "p" "fra" "latest").
    + vm_compute. apply list_elem_of_here.
    + reflexivity.
Defined.

(** A successful creation leaves the name cache absent and the new
    entry in the local settings. *)
Lemma createCmd_ok (w : World) (flags : Flags) (args : list string)
    (c : settings.Settings) (st : state) :
  run (createCmd w flags args) c = (Ok tt, st) →
  settings.db_names_cache (config st) = None
  ∧ ∃ id d, writes (trace st) = [(id, d)] ∧ settings.databases (config st) !! id = Some d.
Proof.
  destruct st as [cfg tr]. mrun.
  create_cases; intros [= <- <-]; (split; [reflexivity|]);
    eexists _, _; (split; [reflexivity|]); cbn; apply lookup_insert_eq.
Qed.

(** ** Destruction *)

(** C8. Frame of [db destroy]: in each of its modes the command neither
    reads nor modifies the local settings, name cache included, and an
    error of the remote call is the error the command returns. *)
Theorem destroy_frame (w : World) (flags : Flags) (args : list string)
    (c : settings.Settings) :
  config (run (destroyCmd w flags args) c).2 = c
  ∧ settings_accesses (trace (run (destroyCmd w flags args) c).2) = []
  ∧ (∀ name msg,
       EvDatabasesDelete name ∈ trace (run (destroyCmd w flags args) c).2 →
       Databases_Delete w name = Some msg →
       (run (destroyCmd w flags args) c).1 = Err (ErrRemote msg))
  ∧ (∀ name region msg,
       EvDatabasesDeleteRegion name region ∈ trace (run (destroyCmd w flags args) c).2 →
       Databases_DeleteRegion w name region = Some msg →
       (run (destroyCmd w flags args) c).1 = Err (ErrRemote msg))
  ∧ (∀ name instance msg,
       EvInstancesDelete name instance ∈ trace (run (destroyCmd w flags args) c).2 →
       Instances_Delete w name instance = Some msg →
       (run (destroyCmd w flags args) c).1 = Err (ErrRemote msg)).
Proof.
  destruct (run (destroyCmd w flags args) c) as [res [cfg tr]] eqn:Hrun.
  cbn [fst snd config trace]. revert Hrun. mrun.
  create_cases; intros [= <- <- <-]; observe.
  all: split; [reflexivity|]; split; [reflexivity|].
  all: split; [intros n m Hin Herr | split; intros n r m Hin Herr];
    invert_in Hin; congruence.
Qed.

(** C8, on three sample destructions whose remote call fails: the whole
    database, one region, one instance. *)
Lemma destroy_frame_witness :
  (run (destroyCmd
          (demo_world (Value ["ams"]) (Value []) (ProbeGetFailed "down")
             None None (Some "gone") (Error "unused"))
          (demo_flags "" "" "" true) ["app1"]) (demo_settings (Some ["app1"]))).1
  = Err (ErrRemote "gone")
  ∧ (run (destroyCmd
            (demo_world (Value ["ams"]) (Value []) (ProbeGetFailed "down")
               None None (Some "gone") (Error "unused"))
            (demo_flags "" "" "fra" false) ["app1"]) (demo_settings (Some ["app1"]))).1
    = Err (ErrRemote "gone")
  ∧ (run (destroyCmd
            (demo_world (Value ["ams"]) (Value []) (ProbeGetFailed "down")
               None None (Some "gone") (Error "unused"))
            (demo_flags "" "inst-1" "" false) ["app1"]) (demo_settings (Some ["app1"]))).1
    = Err (ErrRemote "gone").
Proof.
  split; [|split].
  - apply (proj1 (proj2 (proj2 (destroy_frame _ (demo_flags "" "" "" true) ["app1"]
             (demo_settings (Some ["app1"]))))) "app1" "gone");
      [vm_compute; apply list_elem_of_here | reflexivity].
  - apply (proj1 (proj2 (proj2 (proj2 (destroy_frame _ (demo_flags "" "" "fra" false)
             ["app1"] (demo_settings (Some ["app1"])))))) "app1" "fra" "gone");
      [vm_compute; apply list_elem_of_here | reflexivity].
  - apply (proj2 (proj2 (proj2 (proj2 (destroy_frame _ (demo_flags "" "inst-1" "" false)
             ["app1"] (demo_settings (Some ["app1"])))))) "app1" "inst-1" "gone");
      [vm_compute; apply list_elem_of_here | reflexivity].
Defined.


(** ** The request body *)

(** Bytes owed to a well-formed sequence are there to be found. *)
Lemma utf8_valid_follows (expected : list (nat * nat)) : ∀ s,
  utf8_valid_from expected s = true → Json.follows expected (bytes_items s) = true.
Proof.
  induction expected as [|[lo hi] expected IH]; intros s Hv; [done|].
  destruct s as [|ch r]; [done|]. cbn [utf8_valid_from] in Hv.
  apply andb_prop in Hv as [Hc Hr]. cbn [bytes_items Json.follows].
  by rewrite Hc, IH.
Qed.

(** Well-formed UTF-8 is unquoted to itself. *)
Lemma unquote_from_valid (s : string) : ∀ expected,
  utf8_valid_from expected s = true →
  Json.unquote_from (length expected) (bytes_items s) = s.
Proof.
  induction s as [|ch r IH]; intros expected Hv; [done|].
  cbn [utf8_valid_from] in Hv. cbn [bytes_items Json.unquote_from].
  destruct expected as [|[lo hi] expected]; cbn [length].
  - destruct (nat_of_ascii ch <? 128)%nat.
    + f_equal. exact (IH [] Hv).
    + destruct (Json.utf8_tail ch) as [ranges|]; [|done].
      rewrite (utf8_valid_follows _ _ Hv). f_equal. exact (IH ranges Hv).
  - apply andb_prop in Hv as [_ Hr]. f_equal. exact (IH expected Hr).
Qed.

Lemma unquote_bytes (s : string) :
  utf8_Valid s = true → Json.unquote (bytes_items s) = s.
Proof. apply (unquote_from_valid s []). Qed.

Lemma append_cons (ch : ascii) (r s : string) : String ch r +:+ s = String ch (r +:+ s).
Proof. reflexivity. Qed.

(** The scanner over a concatenation resumes where it stopped. *)
Lemma lex_run_app (s1 : string) : ∀ st s2,
  Json.lex_run st (s1 +:+ s2) =
  match Json.lex_run st s1 with
  | Some (st1, ts1) =>
      match Json.lex_run st1 s2 with
      | Some (st2, ts2) => Some (st2, ts1 ++ ts2)
      | None => None
      end
  | None => None
  end.
Proof.
  induction s1 as [|ch r IH]; intros st s2.
  - change ("" +:+ s2) with s2. cbn [Json.lex_run].
    by destruct (Json.lex_run st s2) as [[? ?]|].
  - rewrite append_cons. cbn [Json.lex_run].
    destruct (Json.lex_step st ch) as [[st' ts]|]; [|done].
    cbn [mbind option_bind]. rewrite IH.
    destruct (Json.lex_run st' r) as [[st1 ts1]|]; [|done].
    cbn [mbind option_bind].
    destruct (Json.lex_run st1 s2) as [[st2 ts2]|]; [|done].
    cbn [mbind option_bind]. by rewrite app_assoc.
Qed.

Lemma lex_lex_run (s : string) : ∀ st,
  Json.lex st s =
  match Json.lex_run st s with
  | Some (st', ts) =>
      match Json.lex_end st' with
      | Some e => Some (ts ++ e)
      | None => None
      end
  | None => None
  end.
Proof.
  induction s as [|ch r IH]; intros st; cbn [Json.lex Json.lex_run].
  - by destruct (Json.lex_end st).
  - destruct (Json.lex_step st ch) as [[st' ts]|]; [|done].
    cbn [mbind option_bind]. rewrite IH.
    destruct (Json.lex_run st' r) as [[st1 ts1]|]; [|done].
    cbn [mbind option_bind].
    destruct (Json.lex_end st1); [|done].
    cbn [mbind option_bind]. by rewrite app_assoc.
Qed.

(** Inside a string literal, plain bytes are taken as they are. *)
Lemma lex_run_plain (s : string) : ∀ acc,
  json_plain s = true →
  Json.lex_run (Json.LString acc) s
  = Some (Json.LString (rev (bytes_items s) ++ acc), []).
Proof.
  induction s as [|ch r IH]; intros acc Hp; [done|].
  cbn [json_plain] in Hp. apply andb_prop in Hp as [Hc Hr].
  unfold plain_byte in Hc.
  apply andb_prop in Hc as [Hc H32]. apply andb_prop in Hc as [Hq Hb].
  apply negb_true_iff in Hq, Hb, H32.
  cbn [Json.lex_run Json.lex_step]. rewrite Hq, Hb, H32.
  cbn [mbind option_bind]. rewrite IH by done.
  cbn [mbind option_bind bytes_items rev app]. by rewrite <- app_assoc.
Qed.

(** A plain string and its closing quote, read from inside a literal. *)
Lemma lex_run_literal (s rest : string) :
  json_plain s = true → utf8_Valid s = true →
  Json.lex_run (Json.LString []) (s +:+ String Fmt.dquote rest) =
  match Json.lex_run Json.LDefault rest with
  | Some (st, ts) => Some (st, Json.TString s :: ts)
  | None => None
  end.
Proof.
  intros Hp Hv. rewrite lex_run_app, lex_run_plain by done.
  cbn [Json.lex_run Json.lex_step]. rewrite Ascii.eqb_refl. cbn [mbind option_bind].
  rewrite app_nil_r, rev_involutive, unquote_bytes by done.
  by destruct (Json.lex_run Json.LDefault rest) as [[? ?]|].
Qed.

(** The body is the template with the four strings spliced in. *)
Lemma createDbReq_form (name region image password : string) :
  createDbReq name region image password =
  Fmt.raw "{'name': '" +:+ name +:+ Fmt.raw "', 'region': '" +:+ region +:+
  Fmt.raw "', 'image': '" +:+ image +:+ Fmt.raw "', 'type': 'replica', 'password': '" +:+
  password +:+ Fmt.raw "'}".
Proof. reflexivity. Qed.

Ltac lex_segment tokens :=
  rewrite lex_run_app;
  match goal with
  | |- context [Json.lex_run Json.LDefault (Fmt.raw ?p)] =>
      replace (Json.lex_run Json.LDefault (Fmt.raw p))
        with (Some (Json.LString [], tokens)) by (vm_compute; reflexivity)
  end;
  cbv beta iota.

Lemma createDbReq_plain (name region image password : string) :
  json_plain name = true → json_plain region = true →
  json_plain image = true → json_plain password = true →
  utf8_Valid name = true → utf8_Valid region = true →
  utf8_Valid image = true → utf8_Valid password = true →
  Json.Unmarshal (createDbReq name region image password) =
  Some (request_object name region image password).
Proof.
  intros Hn Hr Hi Hp Vn Vr Vi Vp.
  unfold Json.Unmarshal. rewrite createDbReq_form, lex_lex_run.
  lex_segment [Json.TLBrace; Json.TString "name"; Json.TColon].
  change (Fmt.raw "', 'region': '") with (String Fmt.dquote (Fmt.raw ", 'region': '")).
  rewrite append_cons, lex_run_literal by done.
  lex_segment [Json.TComma; Json.TString "region"; Json.TColon].
  change (Fmt.raw "', 'image': '") with (String Fmt.dquote (Fmt.raw ", 'image': '")).
  rewrite append_cons, lex_run_literal by done.
  lex_segment [Json.TComma; Json.TString "image"; Json.TColon].
  change (Fmt.raw "', 'type': 'replica', 'password': '")
    with (String Fmt.dquote (Fmt.raw ", 'type': 'replica', 'password': '")).
  rewrite append_cons, lex_run_literal by done.
  lex_segment [Json.TComma; Json.TString "type"; Json.TColon; Json.TString "replica";
               Json.TComma; Json.TString "password"; Json.TColon].
  change (Fmt.raw "'}") with (String Fmt.dquote (Fmt.raw "}")).
  rewrite lex_run_literal by done.
  replace (Json.lex_run Json.LDefault (Fmt.raw "}"))
    with (Some (Json.LDefault, [Json.TRBrace])) by (vm_compute; reflexivity).
  reflexivity.
Qed.

Lemma image_of_plain (canary : bool) :
  json_plain (image_of canary) = true ∧ utf8_Valid (image_of canary) = true.
Proof. by destruct canary. Qed.

(** The decoder coerces to well-formed UTF-8: a region that is the one
    byte 0xFF is read back as U+FFFD, so the well-formedness asked of the
    inputs below cannot be dropped. *)
Lemma createDbReq_invalid_utf8 :
  json_plain (String (ascii_of_nat 255) "") = true
  ∧ utf8_Valid (String (ascii_of_nat 255) "") = false
  ∧ Json.Unmarshal (createDbReq "app1" (String (ascii_of_nat 255) "") (image_of false) "pw")
    = Some (request_object "app1" (Json.utf8 Json.replacement_char) (image_of false) "pw").
Proof. repeat apply conj; vm_compute; reflexivity. Qed.

(** The decoder's limits, on samples: the largest float64 and what
    rounds to it are read, what rounds beyond it is an error, a number
    too small is read (as zero); 10000 levels of nesting are read, one
    more is an error. *)
Lemma Unmarshal_limits :
  decodes "1.7976931348623157e308" = true
  ∧ decodes "1.7976931348623158e308" = true
  ∧ decodes "1.7976931348623159e308" = false
  ∧ decodes "[-1e999]" = false
  ∧ decodes "1e-999" = true
  ∧ decodes (nested_arrays 10000) = true
  ∧ decodes (nested_arrays 10001) = false.
Proof. repeat apply conj; vm_compute; reflexivity. Qed.

(** C10, as stated, fails: a name with a line feed holds neither a double
    quote nor a backslash, and the body built from it is not JSON. *)
Lemma createDbReq_control_character :
  no_quote_backslash (lit "a\nb") = true
  ∧ no_quote_backslash "fra" = true
  ∧ no_quote_backslash "pw" = true
  ∧ Json.Unmarshal (createDbReq (lit "a\nb") "fra" (image_of false) "pw") = None.
Proof. repeat apply conj; vm_compute; reflexivity. Qed.

(** C10, amended. The request body: every request [db replicate] sends
    carries the template with name, region, image and the password stored
    for the source spliced in unescaped; for some password with a double
    quote the body is not the JSON object with exactly the fields name,
    region, image, type and password; for all inputs that are well-formed
    UTF-8 free of double quotes, backslashes and control characters it is
    that object. *)
Theorem createDbReq_json :
  (∀ w flags name region c req,
     req ∈ requests (trace (run (replicateCmd w flags [name; region]) c).2) →
     ∃ dbs original stored,
       Databases_List w = Value dbs
       ∧ find_database dbs name = Some original
       ∧ settings.databases c !! turso.ID original = Some stored
       ∧ req_body req
         = createDbReq name region (image_of (canary flags)) (settings.Password stored))
  ∧ (∃ name region canary password,
       no_quote_backslash password = false
       ∧ Json.Unmarshal (createDbReq name region (image_of canary) password)
         ≠ Some (request_object name region (image_of canary) password))
  ∧ (∀ name region canary password,
       json_plain name = true → json_plain region = true → json_plain password = true →
       utf8_Valid name = true → utf8_Valid region = true → utf8_Valid password = true →
       Json.Unmarshal (createDbReq name region (image_of canary) password)
       = Some (request_object name region (image_of canary) password)).
Proof.
  split; [|split].
  - intros w flags name region c req Hreq.
    destruct (run (replicateCmd w flags [name; region]) c) as [res st] eqn:Hrun.
    destruct (replicateCmd_sent _ _ _ _ _ _ _ _ Hrun Hreq)
      as (dbs & original & stored & Hl & Hf & Hs & -> & _).
    by exists dbs, original, stored.
  - exists "app1", "fra", false, (Fmt.raw "x', 'admin': '1").
    split; vm_compute; [reflexivity | discriminate].
  - intros name region canary password Hn Hr Hp Vn Vr Vp.
    destruct (image_of_plain canary) as [Hi Vi].
    by apply createDbReq_plain.
Qed.

(** C10, amended, on the sample replication of [app1] to [fra]. *)
Lemma createDbReq_json_witness :
  (∃ dbs original stored,
     Databases_List (replicate_world "logical" 200 "200 OK" logical_body) = Value dbs
     ∧ find_database dbs "app1" = Some original
     ∧ settings.databases (demo_settings None) !! turso.ID original = Some stored
     ∧ req_body (replicate_req (replicate_world "logical" 200 "200 OK" logical_body)
                   (demo_flags "" "" "" false) "app1" "fra" (demo_settings None)
                   (demo_database "logical") demo_entry)
       = createDbReq "app1" "fra" (image_of (canary (demo_flags "" "" "" false)))
           (settings.Password stored))
  ∧ Json.Unmarshal (createDbReq "app1" "fra" (image_of false) "pw")
    = Some (request_object "app1" "fra" (image_of false) "pw").
Proof.
  split.
  - apply (proj1 createDbReq_json (replicate_world "logical" 200 "200 OK" logical_body)
             (demo_flags "" "" "" false) "app1" "fra" (demo_settings None)).
    vm_compute. apply list_elem_of_here.
  - apply (proj2 (proj2 createDbReq_json) "app1" "fra" false "pw"); reflexivity.
Defined.

(** * Further properties *)

(** ** Pure helpers *)

(** X1. [toLocation] is total: it never returns the empty string, and a
    code outside the table is rendered as [Region ID: <code>]. *)
Theorem toLocation_total (regionId : string) :
  toLocation regionId ≠ ""
  ∧ (regionId ∉ known_regions → toLocation regionId = "Region ID: " +:+ regionId).
Proof.
  unfold toLocation.
  repeat match goal with
         | |- context [String.eqb regionId ?code] =>
             destruct (String.eqb_spec regionId code) as [->|?];
             [split; [discriminate | intros Hout; exfalso; apply Hout; compute_done]|]
         end.
  split.
  - discriminate.
  - intros _.
    transitivity ("Region ID: " +:+ regionId +:+ ""); [reflexivity|].
    by rewrite append_empty_r.
Qed.

(** X1, on a code outside the table. *)
Lemma toLocation_total_witness : toLocation "xyz" = "Region ID: " +:+ "xyz".
Proof. apply (proj2 (toLocation_total "xyz")). compute_done. Defined.

(** X2. [extractDatabaseNames] keeps the names of the databases of type
    [primary], in listing order and with their repetitions, and nothing
    else. *)
Theorem extractDatabaseNames_primary (databases : list turso.Database) :
  extractDatabaseNames databases
  = map turso.Name
      (List.filter (fun d => String.eqb (turso.Type_ d) "primary") databases)
  ∧ (∀ name, name ∈ extractDatabaseNames databases ↔
       ∃ database, database ∈ databases ∧ turso.Name database = name
                   ∧ turso.Type_ database = "primary")
  ∧ (length (extractDatabaseNames databases) <= length databases)%nat.
Proof.
  split; [|split].
  - induction databases as [|d rest IH]; [done|].
    cbn [extractDatabaseNames List.filter].
    destruct (String.eqb (turso.Type_ d) "primary"); cbn [map]; by rewrite IH.
  - apply extractDatabaseNames_spec.
  - induction databases as [|d rest IH]; [done|].
    cbn [extractDatabaseNames length].
    destruct (String.eqb (turso.Type_ d) "primary"); cbn [length]; lia.
Qed.

Lemma find_database_spec (databases : list turso.Database) (name : string) :
  match find_database databases name with
  | Some d =>
      ∃ before after,
        databases = before ++ d :: after ∧ turso.Name d = name
        ∧ ∀ x, x ∈ before → turso.Name x ≠ name
  | None => ∀ x, x ∈ databases → turso.Name x ≠ name
  end.
Proof.
  induction databases as [|d rest IH]; cbn [find_database].
  - by intros x ?%elem_of_nil.
  - destruct (String.eqb_spec (turso.Name d) name) as [Heq|Hne].
    + exists [], rest. split; [done|]. split; [done|]. by intros x ?%elem_of_nil.
    + destruct (find_database rest name) as [d'|].
      * destruct IH as (before & after & -> & Hname & Hbefore).
        exists (d :: before), after. split; [done|]. split; [done|].
        intros x [->|Hin]%elem_of_cons; auto.
      * intros x [->|Hin]%elem_of_cons; auto.
Qed.

(** X3. [getDatabase] returns the first database of the listing that
    bears the name; a failed listing is returned as its error, a listing
    without the name as the not-found error; the local settings are not
    touched. *)
Theorem getDatabase_first_match (w : World) (name : string) (c : settings.Settings) :
  config (run (getDatabase w name) c).2 = c
  ∧ trace (run (getDatabase w name) c).2 = [EvDatabasesList]
  ∧ match Databases_List w with
    | Error msg => (run (getDatabase w name) c).1 = Err (ErrDatabasesList msg)
    | Value databases =>
        (∃ before d after,
           databases = before ++ d :: after ∧ turso.Name d = name
           ∧ (∀ x, x ∈ before → turso.Name x ≠ name)
           ∧ (run (getDatabase w name) c).1 = Ok d)
        ∨ ((∀ x, x ∈ databases → turso.Name x ≠ name)
           ∧ (run (getDatabase w name) c).1 = Err (ErrDatabaseNotFound name))
    end.
Proof.
  mrun. destruct (Databases_List w) as [databases|msg]; [|done].
  pose proof (find_database_spec databases name) as Hfind.
  destruct (find_database databases name) as [d|].
  - split; [done|]. split; [done|]. left.
    destruct Hfind as (before & after & ? & ? & ?). by exists before, d, after.
  - split; [done|]. split; [done|]. by right.
Qed.

(** X4. [getAccessToken] returns a token exactly when the settings are
    readable and hold a non-empty token, and then it is that token; it
    never panics and leaves the settings as they were. *)
Theorem getAccessToken_nonempty (w : World) (c : settings.Settings) :
  (∀ tok, (run (getAccessToken w) c).1 = Ok tok ↔
          ReadSettings_err w = None ∧ settings.token c = tok ∧ tok ≠ "")
  ∧ (∀ p, (run (getAccessToken w) c).1 ≠ Panic p)
  ∧ config (run (getAccessToken w) c).2 = c.
Proof.
  mrun. unfold settings.GetToken.
  destruct (ReadSettings_err w) as [msg|].
  - split; [|done]. intros tok. split; [discriminate | by intros [? _]].
  - destruct (String.eqb_spec (settings.token c) "") as [Hempty|Hne].
    + split; [|done]. intros tok. split; [discriminate|].
      intros (_ & <- & Hne). done.
    + split; [|done]. intros tok. split.
      * by intros [= <-].
      * by intros (_ & <- & _).
Qed.

(** ** The name cache, composed *)

(** X5. [getDatabaseNames] never fails: it returns names whatever the
    settings and the control plane answer; it changes nothing of the
    settings but the name cache, and with unreadable settings it stores
    nothing. *)
Theorem getDatabaseNames_never_fails (w : World) (c : settings.Settings) :
  (∃ names, (run (getDatabaseNames w) c).1 = Ok names)
  ∧ settings.token (config (run (getDatabaseNames w) c).2) = settings.token c
  ∧ settings.databases (config (run (getDatabaseNames w) c).2) = settings.databases c
  ∧ (ReadSettings_err w ≠ None →
     cache_stores (trace (run (getDatabaseNames w) c).2) = []
     ∧ config (run (getDatabaseNames w) c).2 = c).
Proof.
  mrun. unfold settings.GetDbNamesCache.
  destruct (ReadSettings_err w) as [msg|].
  - destruct (Databases_List w); (split; [by eexists|]); done.
  - destruct (settings.db_names_cache c) as [names|].
    + split; [by eexists|]. done.
    + destruct (Databases_List w); (split; [by eexists|]); done.
Qed.

(** X6. A call of [getDatabaseNames] that follows another is answered
    from the cache: with readable settings both times, the second call
    returns what the first returned and lists nothing, whatever the
    control plane holds by then. *)
Theorem getDatabaseNames_second_call (w w' : World) (c : settings.Settings) :
  ReadSettings_err w = None →
  ReadSettings_err w' = None →
  (run (getDatabaseNames w') (config (run (getDatabaseNames w) c).2)).1
  = (run (getDatabaseNames w) c).1
  ∧ remote_calls (trace (run (getDatabaseNames w')
                           (config (run (getDatabaseNames w) c).2)).2) = [].
Proof.
  intros Hread Hread'.
  destruct (settings.db_names_cache c) as [names|] eqn:Hcache.
  - rewrite (getDatabaseNames_hit w c names) by done. cbn [fst snd config].
    by rewrite (getDatabaseNames_hit w' c names).
  - rewrite (getDatabaseNames_miss w c) by done. cbv zeta. cbn [fst snd config].
    by rewrite (getDatabaseNames_hit w' (settings.SetDbNamesCache _ c) _ Hread' eq_refl).
Qed.

(** X6, on a first call that lists [app1] and a second call made when the
    control plane is unreachable. *)
Lemma getDatabaseNames_second_call_witness :
  (run (getDatabaseNames
          (demo_world (Value ["ams"]) (Error "connection refused")
             (ProbeGetFailed "down") None None None (Error "unused")))
     (config (run (getDatabaseNames
                     (demo_world (Value ["ams"]) (Value [demo_database "primary"])
                        (ProbeGetFailed "down") None None None (Error "unused")))
                bare_settings).2)).1
  = (run (getDatabaseNames
            (demo_world (Value ["ams"]) (Value [demo_database "primary"])
               (ProbeGetFailed "down") None None None (Error "unused")))
       bare_settings).1.
Proof.
  apply (getDatabaseNames_second_call
           (demo_world (Value ["ams"]) (Value [demo_database "primary"])
              (ProbeGetFailed "down") None None None (Error "unused"))
           (demo_world (Value ["ams"]) (Error "connection refused")
              (ProbeGetFailed "down") None None None (Error "unused"))
           bare_settings); reflexivity.
Defined.

(** X7. After a successful [db list], [getDatabaseNames] returns the
    primary names of that listing and lists nothing itself. *)
Theorem listCmd_then_names (w w' : World) (c : settings.Settings)
    (databases : list turso.Database) :
  ReadSettings_err w = None →
  Databases_List w = Value databases →
  ReadSettings_err w' = None →
  (run (listCmd w) c).1 = Ok tt
  ∧ (run (getDatabaseNames w') (config (run (listCmd w) c).2)).1
    = Ok (extractDatabaseNames databases)
  ∧ remote_calls (trace (run (getDatabaseNames w') (config (run (listCmd w) c).2)).2) = [].
Proof.
  intros Hread Hlist Hread'.
  assert (Hrun : run (listCmd w) c =
    (Ok tt,
     {| config := settings.SetDbNamesCache (extractDatabaseNames databases) c;
        trace := [EvReadSettings; EvDatabasesList;
                  EvPrintTable ["name"; "type"; "regions"; "url"]
                    (map (fun database =>
                            [turso.Name database; turso.Type_ database;
                             getDatabaseRegions w database; getDatabaseUrl w c database])
                         databases);
                  EvSetDbNamesCache (extractDatabaseNames databases)] |})).
  { mrun. by rewrite Hread, Hlist. }
  rewrite Hrun. cbn [fst snd config]. split; [done|].
  by rewrite (getDatabaseNames_hit w' (settings.SetDbNamesCache _ c) _ Hread' eq_refl).
Qed.

(** X7, on a sample listing. *)
Lemma listCmd_then_names_witness :
  (run (getDatabaseNames
          (demo_world (Value ["ams"]) (Error "connection refused")
             (ProbeGetFailed "down") None None None (Error "unused")))
     (config (run (listCmd
                     (demo_world (Value ["ams"])
                        (Value [demo_database "primary"; demo_database "logical"])
                        (ProbeGetFailed "down") None None None (Error "unused")))
                bare_settings).2)).1
  = Ok (extractDatabaseNames [demo_database "primary"; demo_database "logical"]).
Proof.
  apply (listCmd_then_names
           (demo_world (Value ["ams"])
              (Value [demo_database "primary"; demo_database "logical"])
              (ProbeGetFailed "down") None None None (Error "unused"))
           (demo_world (Value ["ams"]) (Error "connection refused")
              (ProbeGetFailed "down") None None None (Error "unused"))
           bare_settings [demo_database "primary"; demo_database "logical"]);
    reflexivity.
Defined.

(** X8. After a successful [db create] or [db replicate] the next
    [getDatabaseNames] goes to the control plane: it lists live and
    returns the primary names of that listing (none if the listing
    fails). *)
Theorem mutation_forces_refresh (w w' : World) (flags : Flags) (args : list string)
    (name region : string) (c : settings.Settings) :
  ReadSettings_err w' = None →
  ((run (createCmd w flags args) c).1 = Ok tt →
     (run (getDatabaseNames w') (config (run (createCmd w flags args) c).2)).1
     = Ok (match Databases_List w' with
           | Value databases => extractDatabaseNames databases
           | Error _ => []
           end)
     ∧ remote_calls (trace (run (getDatabaseNames w')
                              (config (run (createCmd w flags args) c).2)).2)
       = [EvDatabasesList])
  ∧ ((run (replicateCmd w flags [name; region]) c).1 = Ok tt →
     (run (getDatabaseNames w')
        (config (run (replicateCmd w flags [name; region]) c).2)).1
     = Ok (match Databases_List w' with
           | Value databases => extractDatabaseNames databases
           | Error _ => []
           end)
     ∧ remote_calls (trace (run (getDatabaseNames w')
                              (config (run (replicateCmd w flags [name; region]) c).2)).2)
       = [EvDatabasesList]).
Proof.
  intros Hread'. split.
  - destruct (run (createCmd w flags args) c) as [res st] eqn:Hrun. cbn [fst snd].
    intros ->. destruct (createCmd_ok _ _ _ _ _ Hrun) as [Hcache _].
    by rewrite (getDatabaseNames_miss w' (config st) Hread' Hcache).
  - destruct (run (replicateCmd w flags [name; region]) c) as [res st] eqn:Hrun.
    cbn [fst snd]. intros ->.
    destruct (replicateCmd_ok_settings _ _ _ _ _ _ Hrun) as [Hcache _].
    by rewrite (getDatabaseNames_miss w' (config st) Hread' Hcache).
Qed.

(** X8, on a sample creation followed by a completion request. *)
Lemma mutation_forces_refresh_witness :
  remote_calls (trace (run (getDatabaseNames
      (demo_world (Value ["ams"]) (Value [demo_database "primary"])
         (ProbeGetFailed "down") None None None (Error "unused")))
      (config (run (createCmd (create_world (ProbeGetFailed "down") None None)
                      (demo_flags "" "" "" false) ["db"])
                 (demo_settings (Some ["stale"]))).2)).2)
  = [EvDatabasesList].
Proof.
  apply (mutation_forces_refresh
           (create_world (ProbeGetFailed "down") None None)
           (demo_world (Value ["ams"]) (Value [demo_database "primary"])
              (ProbeGetFailed "down") None None None (Error "unused"))
           (demo_flags "" "" "" false) ["db"] "app1" "fra"
           (demo_settings (Some ["stale"])) eq_refl).
  vm_compute. reflexivity.
Defined.

(** ** Creation, further *)

(** X9. What [db create] asks the control plane for: at most one database
    and at most one instance; the name is the argument, or the generated
    name when the argument is missing or empty; the region is the flag,
    or what the probe comes to when the flag is empty; the image follows
    the canary flag; and the instance is created with the password the
    database creation returned. *)
Theorem create_requests (w : World) (flags : Flags) (args : list string)
    (c : settings.Settings) :
  (∀ n r i, (n, r, i) ∈ database_creates (trace (run (createCmd w flags args) c).2) →
     create_name w args = Value n ∧ r = create_region w flags
     ∧ i = image_of (canary flags))
  ∧ (∀ n p r i,
       (n, p, r, i) ∈ instance_creates (trace (run (createCmd w flags args) c).2) →
       ∃ res, Databases_Create w n r i = Value res ∧ p = turso.Password res
              ∧ create_name w args = Value n ∧ r = create_region w flags
              ∧ i = image_of (canary flags))
  ∧ (length (database_creates (trace (run (createCmd w flags args) c).2)) <= 1)%nat
  ∧ (length (instance_creates (trace (run (createCmd w flags args) c).2)) <= 1)%nat.
Proof.
  destruct (run (createCmd w flags args) c) as [res [cfg tr]] eqn:Hrun.
  cbn [fst snd config trace]. revert Hrun.
  create_prefix_cases; intros [= <- <- <-]; observe.
  all: split; [intros n r i Hin; invert_in Hin; settle_create|].
  all: split; [intros n p r i Hin; invert_in Hin; eexists; settle_create|].
  all: cbn [length]; lia.
Qed.

(** X9, on a sample creation without name and region. *)
Lemma create_requests_witness :
  create_name (create_world (ProbeDecoded {| Server := "fra" |}) None None) []
  = Value "brave-fox"
  ∧ "fra" = create_region (create_world (ProbeDecoded {| Server := "fra" |}) None None)
              (demo_flags "" "" "" false)
  ∧ "latest" = image_of (canary (demo_flags "" "" "" false)).
Proof.
  apply (proj1 (create_requests
           (create_world (ProbeDecoded {| Server := "fra" |}) None None)
           (demo_flags "" "" "" false) [] bare_settings) "brave-fox" "fra" "latest").
  vm_compute. apply list_elem_of_here.
Defined.

(** X10. The entry a successful [db create] writes: keyed by the ID of
    the database the control plane returned, holding that database's name
    and hostname and the returned username and password. *)
Theorem create_writes_response (w : World) (flags : Flags) (args : list string)
    (c : settings.Settings) :
  (run (createCmd w flags args) c).1 = Ok tt →
  ∃ name res,
    create_name w args = Value name
    ∧ Databases_Create w name (create_region w flags) (image_of (canary flags)) = Value res
    ∧ Instances_Create w name (turso.Password res) (create_region w flags)
        (image_of (canary flags)) = None
    ∧ writes (trace (run (createCmd w flags args) c).2)
      = [(turso.ID (turso.Database_ res),
          {| settings.Name := turso.Name (turso.Database_ res);
             settings.Host := turso.Hostname (turso.Database_ res);
             settings.Username := turso.Username res;
             settings.Password := turso.Password res |})].
Proof.
  destruct (run (createCmd w flags args) c) as [res [cfg tr]] eqn:Hrun.
  cbn [fst snd config trace]. revert Hrun.
  create_prefix_cases; intros [= <- <- <-]; try discriminate; intros _; observe.
  all: eexists _, _; split; [settle_create|];
    (split; [settle_create; eassumption|]); (split; [settle_create; eassumption|]);
    reflexivity.
Qed.

(** X10, on a sample creation. *)
Lemma create_writes_response_witness :
  ∃ name res,
    create_name (create_world (ProbeDecoded {| Server := "fra" |}) None None) ["db"]
    = Value name
    ∧ Databases_Create (create_world (ProbeDecoded {| Server := "fra" |}) None None) name
        (create_region (create_world (ProbeDecoded {| Server := "fra" |}) None None)
           (demo_flags "ams" "" "" false))
        (image_of (canary (demo_flags "ams" "" "" false))) = Value res
    ∧ Instances_Create (create_world (ProbeDecoded {| Server := "fra" |}) None None) name
        (turso.Password res)
        (create_region (create_world (ProbeDecoded {| Server := "fra" |}) None None)
           (demo_flags "ams" "" "" false))
        (image_of (canary (demo_flags "ams" "" "" false))) = None
    ∧ writes (trace (run (createCmd
          (create_world (ProbeDecoded {| Server := "fra" |}) None None)
          (demo_flags "ams" "" "" false) ["db"]) bare_settings).2)
      = [(turso.ID (turso.Database_ res),
          {| settings.Name := turso.Name (turso.Database_ res);
             settings.Host := turso.Hostname (turso.Database_ res);
             settings.Username := turso.Username res;
             settings.Password := turso.Password res |})].
Proof.
  apply (create_writes_response
           (create_world (ProbeDecoded {| Server := "fra" |}) None None)
           (demo_flags "ams" "" "" false) ["db"] bare_settings).
  vm_compute. reflexivity.
Defined.

(** ** Replication, further *)

(** X11. [db replicate] checks its two arguments before anything else: an
    empty name, and then an empty region, is refused with its own error,
    and nothing but the settings has been consulted by then. *)
Theorem replicate_argument_checks (w : World) (flags : Flags) (name region : string)
    (c : settings.Settings) :
  ReadSettings_err w = None →
  (name = "" →
     run (replicateCmd w flags [name; region]) c
     = (Err ErrMustSpecifyName, {| config := c; trace := [EvReadSettings] |}))
  ∧ (name ≠ "" → region = "" →
     run (replicateCmd w flags [name; region]) c
     = (Err ErrMustSpecifyRegion, {| config := c; trace := [EvReadSettings] |})).
Proof.
  intros Hread. split.
  - intros ->. mrun. by rewrite Hread.
  - intros Hname%String.eqb_neq ->. mrun. by rewrite Hread, Hname.
Qed.

(** X11, on a sample call with an empty region. *)
Lemma replicate_argument_checks_witness :
  run (replicateCmd (replicate_world "logical" 200 "200 OK" logical_body)
         (demo_flags "" "" "" false) ["app1"; ""]) bare_settings
  = (Err ErrMustSpecifyRegion, {| config := bare_settings; trace := [EvReadSettings] |}).
Proof.
  apply (replicate_argument_checks
           (replicate_world "logical" 200 "200 OK" logical_body)
           (demo_flags "" "" "" false) "app1" "" bare_settings eq_refl);
    [discriminate | reflexivity].
Defined.

(** X12. The login message of [db replicate] stands for three causes:
    once the arguments and the region are accepted, the command fails
    with it exactly when no token is stored, when the listing fails, or
    when no database bears the name; and then no request is sent. *)
Theorem replicate_login_conflation (w : World) (flags : Flags) (name region : string)
    (c : settings.Settings) :
  ReadSettings_err w = None →
  name ≠ "" → region ≠ "" →
  region_accepted w region = true →
  ((run (replicateCmd w flags [name; region]) c).1 = Err ErrPleaseLogin ↔
   settings.token c = ""
   ∨ (∃ msg, Databases_List w = Error msg)
   ∨ (∃ databases, Databases_List w = Value databases
                   ∧ find_database databases name = None))
  ∧ ((run (replicateCmd w flags [name; region]) c).1 = Err ErrPleaseLogin →
     requests (trace (run (replicateCmd w flags [name; region]) c).2) = []).
Proof.
  intros Hread Hname%String.eqb_neq Hregion%String.eqb_neq Hacc.
  destruct (run (replicateCmd w flags [name; region]) c) as [res [cfg tr]] eqn:Hrun.
  cbn [fst snd config trace]. revert Hrun.
  unfold replicateCmd. mprim. rewrite Hread, Hname, Hregion, isValidRegion_run, Hacc.
  mrun. unfold settings.GetToken.
  replicate_cases; intros [= <- <- <-]; observe.
  all: split; [|intros Hres; try discriminate; reflexivity].
  all: split;
    [ intros Hres; try discriminate;
      first [ left; by apply String.eqb_eq
            | right; left; by eexists
            | right; right; by eexists ]
    | intros Hcause;
      first
        [ reflexivity
        | destruct Hcause as [Htok|[[msg' Hmsg]|(databases' & Hl & Hf)]];
          [ match goal with H : (settings.token _ =? "") = false |- _ =>
              rewrite Htok in H; discriminate H end
          | congruence | congruence ] ] ].
Qed.

(** X12, on a sample call for a database that is not listed. *)
Lemma replicate_login_conflation_witness :
  (run (replicateCmd (replicate_world "logical" 200 "200 OK" logical_body)
          (demo_flags "" "" "" false) ["other"; "fra"]) (demo_settings None)).1
  = Err ErrPleaseLogin.
Proof.
  apply (replicate_login_conflation
           (replicate_world "logical" 200 "200 OK" logical_body)
           (demo_flags "" "" "" false) "other" "fra" (demo_settings None));
    [reflexivity | discriminate | discriminate | reflexivity |].
  right. right. by eexists.
Defined.

(** X13. [db replicate] sends at most one request, and each request
    carries the stored token as its bearer authorization; the token is
    not empty. *)
Theorem replicate_single_request (w : World) (flags : Flags) (name region : string)
    (c : settings.Settings) :
  (length (requests (trace (run (replicateCmd w flags [name; region]) c).2)) <= 1)%nat
  ∧ (∀ req, req ∈ requests (trace (run (replicateCmd w flags [name; region]) c).2) →
       req_authorization req = "Bearer " +:+ settings.token c
       ∧ settings.token c ≠ "").
Proof.
  destruct (run (replicateCmd w flags [name; region]) c) as [res [cfg tr]] eqn:Hrun.
  cbn [fst snd config trace]. revert Hrun. mrun. unfold settings.GetToken.
  replicate_cases; intros [= <- <- <-]; observe;
    (split; [cbn [length]; lia|]);
    intros req Hin; invert_in Hin;
    (split; [reflexivity|]);
    by match goal with H : (settings.token _ =? "") = false |- _ =>
         apply String.eqb_neq in H end.
Qed.

(** X13, on the sample replication. *)
Lemma replicate_single_request_witness :
  req_authorization
    (replicate_req (replicate_world "logical" 200 "200 OK" logical_body)
       (demo_flags "" "" "" false) "app1" "fra" (demo_settings None)
       (demo_database "logical") demo_entry)
  = "Bearer " +:+ settings.token (demo_settings None)
  ∧ settings.token (demo_settings None) ≠ "".
Proof.
  apply (proj2 (replicate_single_request
           (replicate_world "logical" 200 "200 OK" logical_body)
           (demo_flags "" "" "" false) "app1" "fra" (demo_settings None))).
  vm_compute. apply list_elem_of_here.
Defined.

(** X14. A [db replicate] that does not succeed leaves the local state
    alone: whether it returns an error or panics, the settings are as
    before and no write or invalidation was asked for. *)
Theorem replicate_failure_frame (w : World) (flags : Flags) (name region : string)
    (c : settings.Settings) :
  (run (replicateCmd w flags [name; region]) c).1 ≠ Ok tt →
  config (run (replicateCmd w flags [name; region]) c).2 = c
  ∧ steps (trace (run (replicateCmd w flags [name; region]) c).2) = [].
Proof.
  destruct (run (replicateCmd w flags [name; region]) c) as [res [cfg tr]] eqn:Hrun.
  cbn [fst snd config trace]. revert Hrun. mrun.
  replicate_cases; intros [= <- <- <-]; observe; done.
Qed.

(** X14, on the sample replication answered with a body that is not
    JSON. *)
Lemma replicate_failure_frame_witness :
  config (run (replicateCmd (replicate_world "logical" 200 "200 OK" "<html>")
                 (demo_flags "" "" "" false) ["app1"; "fra"])
            (demo_settings (Some ["app1"]))).2
  = demo_settings (Some ["app1"])
  ∧ steps (trace (run (replicateCmd (replicate_world "logical" 200 "200 OK" "<html>")
                         (demo_flags "" "" "" false) ["app1"; "fra"])
                    (demo_settings (Some ["app1"]))).2) = [].
Proof.
  apply (replicate_failure_frame (replicate_world "logical" 200 "200 OK" "<html>")
           (demo_flags "" "" "" false) "app1" "fra" (demo_settings (Some ["app1"]))).
  vm_compute. discriminate.
Defined.

(** X15. Transport failures of [db replicate] are returned as errors: a
    request that cannot be built is never sent; a failed round trip, an
    unreadable body and a body that is not JSON each end the command with
    the corresponding error. *)
Theorem replicate_transport_errors (w : World) (flags : Flags) (name region : string)
    (c : settings.Settings) :
  (∀ url body msg,
     EvHttpNewRequest "POST" url body
       ∈ trace (run (replicateCmd w flags [name; region]) c).2 →
     http_NewRequest_err w url = Some msg →
     (run (replicateCmd w flags [name; region]) c).1 = Err (ErrNewRequest msg)
     ∧ requests (trace (run (replicateCmd w flags [name; region]) c).2) = [])
  ∧ (∀ req msg,
       req ∈ requests (trace (run (replicateCmd w flags [name; region]) c).2) →
       http_Do w req = Error msg →
       (run (replicateCmd w flags [name; region]) c).1 = Err (ErrDo msg))
  ∧ (∀ req resp msg,
       req ∈ requests (trace (run (replicateCmd w flags [name; region]) c).2) →
       http_Do w req = Value resp → StatusCode resp = 200%Z →
       Body resp = Error msg →
       (run (replicateCmd w flags [name; region]) c).1 = Err (ErrReadAll msg))
  ∧ (∀ req resp body,
       req ∈ requests (trace (run (replicateCmd w flags [name; region]) c).2) →
       http_Do w req = Value resp → StatusCode resp = 200%Z →
       Body resp = Value body → Json.Unmarshal body = None →
       (run (replicateCmd w flags [name; region]) c).1 = Err ErrUnmarshal).
Proof.
  destruct (run (replicateCmd w flags [name; region]) c) as [res st] eqn:Hrun.
  cbn [fst snd]. split.
  - destruct st as [cfg tr]. cbn [trace]. revert Hrun. mrun.
    replicate_cases; intros [= <- <- <-]; observe;
      intros url body m Hin Herr; invert_in Hin; (split; [congruence|reflexivity]).
  - split; [|split].
    + intros req msg Hreq Hdo.
      destruct (replicateCmd_sent _ _ _ _ _ _ _ _ Hrun Hreq)
        as (? & ? & ? & _ & _ & _ & _ & _ & ->). by rewrite Hdo.
    + intros req resp msg Hreq Hdo Hstatus Hbody.
      destruct (replicateCmd_sent _ _ _ _ _ _ _ _ Hrun Hreq)
        as (? & ? & ? & _ & _ & _ & _ & _ & ->).
      rewrite Hdo. unfold response_outcome, parsing_outcome.
      by rewrite Hstatus, Hbody.
    + intros req resp body Hreq Hdo Hstatus Hbody Hjson.
      destruct (replicateCmd_sent _ _ _ _ _ _ _ _ Hrun Hreq)
        as (? & ? & ? & _ & _ & _ & _ & _ & ->).
      rewrite Hdo. unfold response_outcome, parsing_outcome.
      by rewrite Hstatus, Hbody, Hjson.
Qed.

(** X15, on the sample replication answered with a body that is not
    JSON. *)
Lemma replicate_transport_errors_witness :
  (run (replicateCmd (replicate_world "logical" 200 "200 OK" "<html>")
          (demo_flags "" "" "" false) ["app1"; "fra"]) (demo_settings None)).1
  = Err ErrUnmarshal.
Proof.
  apply (proj2 (proj2 (proj2 (replicate_transport_errors
           (replicate_world "logical" 200 "200 OK" "<html>")
           (demo_flags "" "" "" false) "app1" "fra" (demo_settings None))))
           (replicate_req (replicate_world "logical" 200 "200 OK" "<html>")
              (demo_flags "" "" "" false) "app1" "fra" (demo_settings None)
              (demo_database "logical") demo_entry)
           {| StatusCode := 200; Status := "200 OK"; Body := Value "<html>" |}
           "<html>");
    [vm_compute; apply list_elem_of_here | reflexivity | reflexivity | reflexivity
    | vm_compute; reflexivity].
Defined.

Lemma response_fields_credentials (original : turso.Database) (result : Json.value)
    (id : string) (d : settings.DatabaseSettings) :
  response_fields original result = Some (id, d) →
  settings.Name d = ""
  ∧ field (Some result) "username" = Some (Json.VStr (settings.Username d))
  ∧ field (Some result) "password" = Some (Json.VStr (settings.Password d)).
Proof.
  unfold response_fields. intros H.
  repeat (case_match; simplify_eq); done.
Qed.

(** X16. The credentials a successful [db replicate] stores are those of
    the response: the entry written has the response's [username] and
    [password] strings, and an empty name; the password of the source,
    sent in the request, is not what is stored. *)
Theorem replicate_stores_response_credentials (w : World) (flags : Flags)
    (name region : string) (c : settings.Settings) :
  (run (replicateCmd w flags [name; region]) c).1 = Ok tt →
  ∃ req id d,
    requests (trace (run (replicateCmd w flags [name; region]) c).2) = [req]
    ∧ writes (trace (run (replicateCmd w flags [name; region]) c).2) = [(id, d)]
    ∧ settings.Name d = ""
    ∧ field (decoded_response w req) "username" = Some (Json.VStr (settings.Username d))
    ∧ field (decoded_response w req) "password" = Some (Json.VStr (settings.Password d)).
Proof.
  destruct (run (replicateCmd w flags [name; region]) c) as [res st] eqn:Hrun.
  cbn [fst snd]. intros ->.
  destruct (replicateCmd_ok _ _ _ _ _ _ Hrun)
    as (dbs & original & stored & resp & body & result & id & d & _ & _ & _
        & Hdo & _ & Hbody & Hjson & Hfields & Hreqs & Hwrites & _).
  destruct (response_fields_credentials _ _ _ _ Hfields) as (Hn & Hu & Hp).
  eexists _, id, d. split; [exact Hreqs|]. split; [exact Hwrites|].
  split; [exact Hn|]. unfold decoded_response. by rewrite Hdo, Hbody, Hjson.
Qed.

(** X16, on the sample replication. *)
Lemma replicate_stores_response_credentials_witness :
  ∃ req id d,
    requests (trace (run (replicateCmd
        (replicate_world "logical" 200 "200 OK" logical_body)
        (demo_flags "" "" "" false) ["app1"; "fra"]) (demo_settings None)).2) = [req]
    ∧ writes (trace (run (replicateCmd
        (replicate_world "logical" 200 "200 OK" logical_body)
        (demo_flags "" "" "" false) ["app1"; "fra"]) (demo_settings None)).2) = [(id, d)]
    ∧ settings.Name d = ""
    ∧ field (decoded_response (replicate_world "logical" 200 "200 OK" logical_body) req)
        "username" = Some (Json.VStr (settings.Username d))
    ∧ field (decoded_response (replicate_world "logical" 200 "200 OK" logical_body) req)
        "password" = Some (Json.VStr (settings.Password d)).
Proof.
  apply (replicate_stores_response_credentials
           (replicate_world "logical" 200 "200 OK" logical_body)
           (demo_flags "" "" "" false) "app1" "fra" (demo_settings None)).
  vm_compute. reflexivity.
Defined.

(** ** The region probe, destruction and completion, further *)

(** X17. The region probe always returns a region, and that region is
    the fallback or a probed region the catalog accepts; the probe starts
    with its one request to the probe URL and leaves the settings alone. *)
Theorem probe_result (w : World) (c : settings.Settings) :
  (run (probeClosestRegion w) c).1 = Ok (probed_region w)
  ∧ (probed_region w = FallbackRegionId
     ∨ ∃ reg, probe w = ProbeDecoded reg ∧ probed_region w = Server reg
              ∧ region_accepted w (Server reg) = true)
  ∧ config (run (probeClosestRegion w) c).2 = c
  ∧ head (trace (run (probeClosestRegion w) c).2) = Some (EvHttpGet probeUrl)
  ∧ length (List.filter (fun e => match e with EvHttpGet _ => true | _ => false end)
              (trace (run (probeClosestRegion w) c).2)) = 1%nat.
Proof.
  unfold probeClosestRegion, probed_region. mprim.
  destruct (probe w) as [msg|msg|reg]; [by repeat split; try left ..|].
  rewrite isValidRegion_run. cbv beta iota.
  destruct (region_accepted w (Server reg)) eqn:Hacc.
  - repeat split; try done. right. by exists reg.
  - repeat split; try done. by left.
Qed.

Ltac run_completion :=
  cbv [destroyArgs replicateArgs]; cbn [length Nat.eqb]; mrun.

(** X18. The modes of [db destroy] in their order of precedence: the
    instance flag wins over the region flag, which wins over the yes
    flag; in each of the three the one thing done is the removal of that
    mode, with no message and no question. *)
Theorem destroy_modes (w : World) (flags : Flags) (name : string)
    (c : settings.Settings) :
  (instanceFlag flags ≠ "" →
     trace (run (destroyCmd w flags [name]) c).2
     = [EvInstancesDelete name (instanceFlag flags)])
  ∧ (instanceFlag flags = "" → regionFlag flags ≠ "" →
     trace (run (destroyCmd w flags [name]) c).2
     = [EvDatabasesDeleteRegion name (regionFlag flags)])
  ∧ (instanceFlag flags = "" → regionFlag flags = "" → yesFlag flags = true →
     trace (run (destroyCmd w flags [name]) c).2 = [EvDatabasesDelete name]).
Proof.
  split; [|split].
  - intros Hi%String.eqb_neq. mrun. rewrite Hi. cbn [negb].
    by destruct (Instances_Delete w name (instanceFlag flags)).
  - intros Hi Hr%String.eqb_neq. mrun. rewrite Hi, Hr. cbn [negb String.eqb].
    by destruct (Databases_DeleteRegion w name (regionFlag flags)).
  - intros Hi Hr Hy. mrun. rewrite Hi, Hr, Hy. cbn [negb String.eqb].
    by destruct (Databases_Delete w name).
Qed.

(** X18, on a sample destruction with both the instance and the region
    flag set. *)
Lemma destroy_modes_witness :
  trace (run (destroyCmd
                (demo_world (Value ["ams"]) (Value []) (ProbeGetFailed "down")
                   None None None (Error "unused"))
                (demo_flags "" "inst-1" "fra" true) ["app1"]) bare_settings).2
  = [EvInstancesDelete "app1" (instanceFlag (demo_flags "" "inst-1" "fra" true))].
Proof.
  apply (proj1 (destroy_modes
           (demo_world (Value ["ams"]) (Value []) (ProbeGetFailed "down")
              None None None (Error "unused"))
           (demo_flags "" "inst-1" "fra" true) "app1" bare_settings)).
  discriminate.
Defined.

(** X19. [db destroy] without flags asks first: a refusal ends the
    command successfully with nothing removed, a failed prompt is
    returned as an error with nothing removed, and only a confirmation
    leads to the removal of the database. *)
Theorem destroy_prompt (w : World) (flags : Flags) (name : string)
    (c : settings.Settings) :
  instanceFlag flags = "" → regionFlag flags = "" → yesFlag flags = false →
  EvPrompt "Are you sure you want to do this?"
    ∈ trace (run (destroyCmd w flags [name]) c).2
  ∧ match promptConfirmation w "Are you sure you want to do this?" with
    | Error msg =>
        (run (destroyCmd w flags [name]) c).1 = Err (ErrPrompt msg)
        ∧ remote_calls (trace (run (destroyCmd w flags [name]) c).2) = []
    | Value false =>
        (run (destroyCmd w flags [name]) c).1 = Ok tt
        ∧ remote_calls (trace (run (destroyCmd w flags [name]) c).2) = []
        ∧ last (printed (trace (run (destroyCmd w flags [name]) c).2))
          = Some ("Database destruction avoided." +:+ lit "\n")
    | Value true =>
        remote_calls (trace (run (destroyCmd w flags [name]) c).2)
        = [EvDatabasesDelete name]
    end.
Proof.
  intros Hi Hr Hy. mrun. rewrite Hi, Hr, Hy. cbn [negb String.eqb].
  destruct (promptConfirmation w "Are you sure you want to do this?") as [[|]|msg];
    cbn [negb].
  - destruct (Databases_Delete w name); split; try reflexivity;
      repeat constructor.
  - split; [repeat constructor | done].
  - split; [repeat constructor | done].
Qed.

(** X19, on a sample destruction the user refuses. *)
Lemma destroy_prompt_witness :
  EvPrompt "Are you sure you want to do this?"
    ∈ trace (run (destroyCmd
                    {| ReadSettings_err := None; GetRegions := Value [];
                       Databases_List := Value [];
                       Databases_Create := fun _ _ _ => Error "unused";
                       Instances_Create := fun _ _ _ _ => None;
                       Databases_Delete := fun _ => None;
                       Databases_DeleteRegion := fun _ _ => None;
                       Instances_Delete := fun _ _ => None;
                       TURSO_API_BASEURL := "";
                       codename_Generate := Error "unused";
                       probe := ProbeGetFailed "down";
                       http_NewRequest_err := fun _ => None;
                       http_Do := fun _ => Error "unused";
                       elapsed_seconds := 0;
                       emph := fun s => s; warn := fun s => s;
                       promptConfirmation := fun _ => Value false;
                       GetURL := fun _ => ""; getDatabaseUrl := fun _ _ => "";
                       getDatabaseRegions := fun _ => "" |}
                    (demo_flags "" "" "" false) ["app1"]) bare_settings).2.
Proof.
  apply (destroy_prompt _ (demo_flags "" "" "" false) "app1" bare_settings);
    reflexivity.
Defined.

(** X20. Shell completion never fails.  For the first argument both
    [destroyArgs] and [replicateArgs] offer what [getDatabaseNames]
    returns, and do nothing else: the cached names when the settings are
    readable and hold a snapshot, else the primary names of a fresh
    listing (none when the listing fails).  [destroyArgs] offers nothing
    after the first argument; [replicateArgs] offers the region catalog
    for the second (empty when the catalog cannot be fetched) and nothing
    after; beyond their positions neither consults anything. *)
Theorem completion_total (w : World) (args : list string) (c : settings.Settings) :
  (∃ names, (run (destroyArgs w args) c).1 = Ok (names, ShellCompDirectiveNoFileComp))
  ∧ (∃ names d, (run (replicateArgs w args) c).1 = Ok (names, d))
  ∧ (args = [] →
     ∃ names st,
       run (getDatabaseNames w) c = (Ok names, st)
       ∧ run (destroyArgs w args) c = (Ok (names, ShellCompDirectiveNoFileComp), st)
       ∧ run (replicateArgs w args) c = (Ok (names, ShellCompDirectiveNoFileComp), st)
       ∧ names = match ReadSettings_err w, settings.db_names_cache c with
                 | None, Some cached => cached
                 | _, _ =>
                     match Databases_List w with
                     | Value databases => extractDatabaseNames databases
                     | Error _ => []
                     end
                 end)
  ∧ (args ≠ [] →
     run (destroyArgs w args) c
     = (Ok ([], ShellCompDirectiveNoFileComp), {| config := c; trace := [] |}))
  ∧ (length args = 1%nat →
     run (replicateArgs w args) c
     = (Ok (catalog w, ShellCompDirectiveNoFileCompNoSpace),
        {| config := c; trace := [EvGetRegions] |}))
  ∧ ((2 <= length args)%nat →
     run (replicateArgs w args) c
     = (Ok ([], ShellCompDirectiveNoFileComp), {| config := c; trace := [] |})).
Proof.
  unfold catalog. split; [|split; [|split; [|split; [|split]]]].
  - destruct args as [|a rest]; run_completion; [|by eexists].
    unfold settings.GetDbNamesCache.
    destruct (ReadSettings_err w); [destruct (Databases_List w); by eexists|].
    destruct (settings.db_names_cache c); [by eexists|].
    destruct (Databases_List w); by eexists.
  - destruct args as [|a [|b rest]]; run_completion.
    + unfold settings.GetDbNamesCache.
      destruct (ReadSettings_err w); [destruct (Databases_List w); by eexists _, _|].
      destruct (settings.db_names_cache c); [by eexists _, _|].
      destruct (Databases_List w); by eexists _, _.
    + destruct (GetRegions w); by eexists _, _.
    + by eexists _, _.
  - intros ->. run_completion. unfold settings.GetDbNamesCache.
    destruct (ReadSettings_err w); [destruct (Databases_List w); by eexists _, _|].
    destruct (settings.db_names_cache c); [by eexists _, _|].
    destruct (Databases_List w); by eexists _, _.
  - intros Hne. destruct args as [|a rest]; [done|]. by run_completion.
  - intros Hlen. destruct args as [|a [|b rest]]; try discriminate.
    run_completion. by destruct (GetRegions w).
  - intros Hlen. destruct args as [|a [|b rest]]; cbn [length] in Hlen; try lia.
    by run_completion.
Qed.

(** X20, on the completion of the first argument with a snapshot in the
    settings, and of the second argument of [db replicate]. *)
Lemma completion_total_witness :
  (∃ names st,
     run (getDatabaseNames (create_world (ProbeGetFailed "down") None None))
       (demo_settings (Some ["app1"])) = (Ok names, st)
     ∧ run (destroyArgs (create_world (ProbeGetFailed "down") None None) [])
         (demo_settings (Some ["app1"]))
       = (Ok (names, ShellCompDirectiveNoFileComp), st)
     ∧ run (replicateArgs (create_world (ProbeGetFailed "down") None None) [])
         (demo_settings (Some ["app1"]))
       = (Ok (names, ShellCompDirectiveNoFileComp), st)
     ∧ names = match ReadSettings_err (create_world (ProbeGetFailed "down") None None),
                     settings.db_names_cache (demo_settings (Some ["app1"])) with
               | None, Some cached => cached
               | _, _ =>
                   match Databases_List (create_world (ProbeGetFailed "down") None None) with
                   | Value databases => extractDatabaseNames databases
                   | Error _ => []
                   end
               end)
  ∧ run (replicateArgs (create_world (ProbeGetFailed "down") None None) ["app1"])
      bare_settings
    = (Ok (catalog (create_world (ProbeGetFailed "down") None None),
           ShellCompDirectiveNoFileCompNoSpace),
       {| config := bare_settings; trace := [EvGetRegions] |}).
Proof.
  split.
  - apply (proj1 (proj2 (proj2 (completion_total
             (create_world (ProbeGetFailed "down") None None) []
             (demo_settings (Some ["app1"])))))).
    reflexivity.
  - apply (proj1 (proj2 (proj2 (proj2 (proj2 (completion_total
             (create_world (ProbeGetFailed "down") None None) ["app1"] bare_settings)))))).
    reflexivity.
Defined.

(** ** [regionsCmd] and [showCmd] *)

Lemma printed_app (t1 t2 : list event) : printed (t1 ++ t2) = printed t1 ++ printed t2.
Proof.
  induction t1 as [|e t1 IH]; [done|].
  cbn [app printed omap list_omap]. fold (printed (t1 ++ t2)). fold (printed t1).
  rewrite IH. by destruct e.
Qed.

(** The loop prints one line per region, in order, and does nothing else. *)
Lemma regions_loop_run (w : World) (defaultRegionId : string) (regionIds : list string) :
  ∀ s, regions_loop w defaultRegionId regionIds s =
       (Ok tt,
        {| config := config s;
           trace := trace s ++
                    map (fun regionId =>
                           EvPrint (Fmt.Sprintf (lit "%s\n")
                                      [region_line w defaultRegionId regionId]))
                        regionIds |}).
Proof.
  induction regionIds as [|regionId rest IH]; intros [cfg tr].
  - cbn [regions_loop map]. unfold ret. cbn [config trace]. by rewrite app_nil_r.
  - cbn [regions_loop map]. unfold bind, Printf, emit. cbn [config trace].
    rewrite IH. cbn [config trace]. by rewrite <- app_assoc.
Qed.

Lemma printed_prints {A : Type} (f : A → string) (l : list A) :
  printed (map (fun x => EvPrint (f x)) l) = map f l.
Proof. induction l as [|x rest IH]; [done|]. cbn. f_equal. exact IH. Qed.

(** X21. [db regions] always succeeds and prints, after the header, one
    line per region of the catalog, in catalog order; the line of a region
    is marked as default exactly when the region is what the probe came
    to, so no line is marked when the fallback is not in the catalog.  The
    fallback warning precedes the header when the probe's request
    failed. *)
Theorem regionsCmd_output (w : World) (c : settings.Settings) :
  (run (regionsCmd w) c).1 = Ok tt
  ∧ config (run (regionsCmd w) c).2 = c
  ∧ printed (trace (run (regionsCmd w) c).2)
    = match probe w with
      | ProbeGetFailed _ => [Fmt.Sprintf (warn w FallbackWarning) []]
      | _ => []
      end
      ++ ["ID   LOCATION" +:+ lit "\n"]
      ++ map (fun regionId =>
                Fmt.Sprintf (lit "%s\n") [region_line w (probed_region w) regionId])
             (catalog w).
Proof.
  unfold regionsCmd, probeClosestRegion, probed_region, catalog, getRegionIds. mprim.
  destruct (probe w) as [msg|msg|reg].
  - destruct (GetRegions w) as [ids|msg']; rewrite regions_loop_run;
      cbn [fst snd config trace]; (split; [done|]); (split; [done|]);
      by rewrite printed_app, printed_prints.
  - destruct (GetRegions w) as [ids|msg']; rewrite regions_loop_run;
      cbn [fst snd config trace]; (split; [done|]); (split; [done|]);
      by rewrite printed_app, printed_prints.
  - rewrite isValidRegion_run.
    destruct (region_accepted w (Server reg));
      destruct (GetRegions w) as [ids|msg']; mprim; rewrite regions_loop_run;
      cbn [fst snd config trace]; (split; [done|]); (split; [done|]);
      by rewrite printed_app, printed_prints.
Qed.

(** The mark of the default region is on a line exactly when the line's
    region is the default one. *)
Lemma region_line_default (w : World) (defaultRegionId regionId : string) :
  region_line w defaultRegionId regionId
  = if String.eqb regionId defaultRegionId
    then emph w (regionId +:+ "  " +:+ toLocation regionId +:+ "  [default]")
    else regionId +:+ "  " +:+ toLocation regionId.
Proof.
  unfold region_line. destruct (String.eqb regionId defaultRegionId).
  - reflexivity.
  - transitivity (regionId +:+ "  " +:+ (toLocation regionId +:+ "")); [reflexivity|].
    by rewrite append_empty_r.
Qed.

(** [sort.Strings] gives the same strings, in increasing order. *)
Lemma sort_insert_perm (x : string) (l : list string) : sort_insert x l ≡ₚ x :: l.
Proof.
  induction l as [|y rest IH]; [done|]. cbn [sort_insert].
  destruct (String.leb x y); [done|]. rewrite IH. apply Permutation_swap.
Qed.

Lemma sort_Strings_perm (l : list string) : sort_Strings l ≡ₚ l.
Proof.
  induction l as [|x rest IH]; [done|]. cbn [sort_Strings].
  by rewrite sort_insert_perm, IH.
Qed.

Lemma sort_insert_sorted (x : string) (l : list string) :
  Sorted (fun a b => String.leb a b = true) l →
  Sorted (fun a b => String.leb a b = true) (sort_insert x l).
Proof.
  induction 1 as [|y rest Hs IH Hhd]; cbn [sort_insert].
  - by repeat constructor.
  - destruct (String.leb x y) eqn:Hle.
    + by repeat constructor.
    + constructor; [exact IH|].
      assert (Hyx : String.leb y x = true).
      { destruct (String.leb_total x y) as [H|H]; congruence. }
      destruct Hhd as [|z rest' Hyz]; cbn [sort_insert]; [by constructor|].
      destruct (String.leb x z); by constructor.
Qed.

Lemma sort_Strings_sorted (l : list string) :
  Sorted (fun a b => String.leb a b = true) (sort_Strings l).
Proof.
  induction l as [|x rest IH]; cbn [sort_Strings]; [constructor|].
  by apply sort_insert_sorted.
Qed.

Ltac show_cases :=
  cbv [showCmd Println_operands]; mrun; repeat (inner_case; simplify_eq; mrun).

(** X22. [db show] is for databases of type [logical] only: for a
    database of any other type it returns its own error after the
    listing, without reading the settings and without printing. *)
Theorem show_type_gate (w : World)
    (Instances_List : string → errorOr (list instance.Instance))
    (getInstanceUrl : settings.Settings → turso.Database → instance.Instance → string)
    (flags : Flags) (name : string) (c : settings.Settings)
    (databases : list turso.Database) (db : turso.Database) :
  Databases_List w = Value databases →
  find_database databases name = Some db →
  turso.Type_ db ≠ "logical" →
  run (showCmd w Instances_List getInstanceUrl flags [name]) c
  = (Ok (Some ErrOnlyLogicalShow), {| config := c; trace := [EvDatabasesList] |}).
Proof.
  intros Hlist Hfind Hty%String.eqb_neq.
  cbv [showCmd]. mrun. by rewrite Hlist, Hfind, Hty.
Qed.

(** X22, on the sample database of type [primary]. *)
Lemma show_type_gate_witness :
  run (showCmd (replicate_world "primary" 200 "200 OK" "") demo_instances
         demo_instance_url (demo_flags "" "" "" false) ["app1"]) bare_settings
  = (Ok (Some ErrOnlyLogicalShow),
     {| config := bare_settings; trace := [EvDatabasesList] |}).
Proof.
  apply (show_type_gate (replicate_world "primary" 200 "200 OK" "") demo_instances
           demo_instance_url (demo_flags "" "" "" false) "app1" bare_settings
           [demo_database "primary"] (demo_database "primary"));
    [reflexivity | reflexivity | discriminate].
Defined.

(** X23. [db show --url] does not depend on the instances of the
    database: the run is the same whatever the instance listing would
    answer.  It succeeds exactly when the database named by the argument
    is listed, is of type [logical] and the settings are readable, and
    then prints one line and nothing else: the connection URL of that
    database. *)
Theorem show_url_only (w : World)
    (Instances_List Instances_List' : string → errorOr (list instance.Instance))
    (getInstanceUrl getInstanceUrl'
       : settings.Settings → turso.Database → instance.Instance → string)
    (flags : Flags) (args : list string) (c : settings.Settings) :
  showUrlFlag flags = true →
  run (showCmd w Instances_List getInstanceUrl flags args) c
  = run (showCmd w Instances_List' getInstanceUrl' flags args) c
  ∧ (∀ name rest, args = name :: rest →
       ((run (showCmd w Instances_List getInstanceUrl flags args) c).1 = Ok None ↔
        ∃ databases db,
          Databases_List w = Value databases ∧ find_database databases name = Some db
          ∧ turso.Type_ db = "logical" ∧ ReadSettings_err w = None)
       ∧ (∀ databases db,
            Databases_List w = Value databases → find_database databases name = Some db →
            (run (showCmd w Instances_List getInstanceUrl flags args) c).1 = Ok None →
            printed (trace (run (showCmd w Instances_List getInstanceUrl flags args) c).2)
            = [getDatabaseUrl w c db +:+ lit "\n"])).
Proof.
  intros Hurl. split.
  - cbv [showCmd]. mrun. rewrite Hurl. reflexivity.
  - intros name rest ->. cbv [showCmd]. mrun. rewrite Hurl.
    destruct (Databases_List w) as [databases|msg].
    2: { split; [split; [discriminate | by intros (? & ? & ? & _)] | done]. }
    destruct (find_database databases name) as [db|] eqn:Hfind.
    2: { split; [split; [discriminate | intros (? & ? & [= <-] & ? & _); congruence]|].
         intros ? ? [= <-]; congruence. }
    destruct (String.eqb (turso.Type_ db) "logical") eqn:Hty; cbn [negb].
    2: { apply String.eqb_neq in Hty.
         split; [split; [discriminate | intros (? & ? & [= <-] & ? & ? & _); congruence]|].
         discriminate. }
    apply String.eqb_eq in Hty.
    destruct (ReadSettings_err w) as [msg|].
    { split; [split; [discriminate | by intros (? & ? & _ & _ & _ & ?)]|]. discriminate. }
    split; [split; [by eexists _, _ | done]|].
    intros ? db0 [= <-] Hdb0 _. assert (db0 = db) as -> by congruence. reflexivity.
Qed.

(** X23, on the sample logical database. *)
Lemma show_url_only_witness :
  run (showCmd (replicate_world "logical" 200 "200 OK" "") demo_instances
         demo_instance_url
         {| canary := false; showUrlFlag := true; region := ""; yesFlag := false;
            instanceFlag := ""; regionFlag := "" |} ["app1"]) bare_settings
  = run (showCmd (replicate_world "logical" 200 "200 OK" "") (fun _ => Error "down")
           demo_instance_url
           {| canary := false; showUrlFlag := true; region := ""; yesFlag := false;
              instanceFlag := ""; regionFlag := "" |} ["app1"]) bare_settings
  ∧ printed (trace (run (showCmd (replicate_world "logical" 200 "200 OK" "")
                          demo_instances demo_instance_url
                          {| canary := false; showUrlFlag := true; region := "";
                             yesFlag := false; instanceFlag := ""; regionFlag := "" |}
                          ["app1"]) bare_settings).2)
    = [getDatabaseUrl (replicate_world "logical" 200 "200 OK" "") bare_settings
         (demo_database "logical") +:+ lit "\n"].
Proof.
  split.
  - apply (show_url_only (replicate_world "logical" 200 "200 OK" "")). reflexivity.
  - apply (proj2 (proj2 (show_url_only (replicate_world "logical" 200 "200 OK" "")
             demo_instances demo_instances demo_instance_url demo_instance_url
             {| canary := false; showUrlFlag := true; region := ""; yesFlag := false;
                instanceFlag := ""; regionFlag := "" |} ["app1"] bare_settings eq_refl)
             "app1" [] eq_refl) [demo_database "logical"]);
      vm_compute; reflexivity.
Defined.

(** X24. The full [db show] succeeds exactly when the database named by
    the argument is listed, is of type [logical], the settings are
    readable and its instances can be listed.  It then prints the name,
    the URL, the ID and the regions of that database: the regions line
    holds the database's regions in increasing order, whatever order the
    control plane lists them in, joined by a comma and a space. *)
Theorem show_regions_sorted (w : World)
    (Instances_List : string → errorOr (list instance.Instance))
    (getInstanceUrl : settings.Settings → turso.Database → instance.Instance → string)
    (flags : Flags) (name : string) (rest : list string) (c : settings.Settings) :
  showUrlFlag flags = false →
  ((run (showCmd w Instances_List getInstanceUrl flags (name :: rest)) c).1 = Ok None ↔
   ∃ databases db instances,
     Databases_List w = Value databases ∧ find_database databases name = Some db
     ∧ turso.Type_ db = "logical" ∧ ReadSettings_err w = None
     ∧ Instances_List (turso.Name db) = Value instances)
  ∧ (∀ databases db,
       Databases_List w = Value databases → find_database databases name = Some db →
       (run (showCmd w Instances_List getInstanceUrl flags (name :: rest)) c).1 = Ok None →
       ∃ regions,
         regions ≡ₚ turso.Regions db
         ∧ Sorted (fun a b => String.leb a b = true) regions
         ∧ printed (trace (run (showCmd w Instances_List getInstanceUrl flags
                                  (name :: rest)) c).2)
           = ["Name:    " +:+ " " +:+ turso.Name db +:+ lit "\n";
              "URL:     " +:+ " " +:+ getDatabaseUrl w c db +:+ lit "\n";
              "ID:      " +:+ " " +:+ turso.ID db +:+ lit "\n";
              "Regions: " +:+ " " +:+ strings_Join regions ", " +:+ lit "\n";
              lit "\n";
              lit "Database Instances:\n"]).
Proof.
  intros Hurl. cbv [showCmd Println_operands]. mrun. rewrite Hurl.
  destruct (Databases_List w) as [databases|msg].
  2: { split; [split; [discriminate | by intros (? & ? & ? & ? & _)] | done]. }
  destruct (find_database databases name) as [db|] eqn:Hfind.
  2: { split; [split; [discriminate | intros (? & ? & ? & [= <-] & ? & _); congruence]|].
       intros ? ? [= <-]; congruence. }
  destruct (String.eqb (turso.Type_ db) "logical") eqn:Hty; cbn [negb].
  2: { apply String.eqb_neq in Hty.
       split; [split; [discriminate|]|discriminate].
       intros (? & ? & ? & [= <-] & ? & ? & _); congruence. }
  apply String.eqb_eq in Hty.
  destruct (ReadSettings_err w) as [msg|].
  { split; [split; [discriminate | by intros (? & ? & ? & _ & _ & _ & ? & _)]|].
    discriminate. }
  destruct (Instances_List (turso.Name db)) as [instances|msg] eqn:Hinst.
  2: { split; [split; [discriminate|]|discriminate].
       intros (? & ? & ? & [= <-] & ? & _ & _ & ?). congruence. }
  split; [split; [by eexists _, _, _ | done]|].
  intros ? db' [= <-] Hdb' _. assert (db' = db) as -> by congruence.
  exists (sort_Strings (turso.Regions db)).
  split; [apply sort_Strings_perm|]. split; [apply sort_Strings_sorted|].
  reflexivity.
Qed.

(** X24, on a sample database listed with its regions out of order. *)
Lemma show_regions_sorted_witness :
  ∃ regions,
    regions ≡ₚ ["gru"; "ams"; "fra"]
    ∧ Sorted (fun a b => String.leb a b = true) regions
    ∧ printed (trace (run (showCmd
                      (demo_world (Value ["ams"])
                         (Value [{| turso.ID := "id1"; turso.Name := "app1";
                                    turso.Type_ := "logical";
                                    turso.Hostname := "app1.example";
                                    turso.Regions := ["gru"; "ams"; "fra"] |}])
                         (ProbeGetFailed "down") None None None (Error "unused"))
                      demo_instances demo_instance_url
                      (demo_flags "" "" "" false) ["app1"]) bare_settings).2)
      = ["Name:    " +:+ " " +:+ "app1" +:+ lit "\n";
         "URL:     " +:+ " " +:+ "https://app1.example" +:+ lit "\n";
         "ID:      " +:+ " " +:+ "id1" +:+ lit "\n";
         "Regions: " +:+ " " +:+ strings_Join regions ", " +:+ lit "\n";
         lit "\n";
         lit "Database Instances:\n"].
Proof.
  apply (proj2 (show_regions_sorted
           (demo_world (Value ["ams"])
              (Value [{| turso.ID := "id1"; turso.Name := "app1"; turso.Type_ := "logical";
                         turso.Hostname := "app1.example";
                         turso.Regions := ["gru"; "ams"; "fra"] |}])
              (ProbeGetFailed "down") None None None (Error "unused"))
           demo_instances demo_instance_url (demo_flags "" "" "" false) "app1" []
           bare_settings eq_refl)
           [{| turso.ID := "id1"; turso.Name := "app1"; turso.Type_ := "logical";
               turso.Hostname := "app1.example"; turso.Regions := ["gru"; "ams"; "fra"] |}]
           {| turso.ID := "id1"; turso.Name := "app1"; turso.Type_ := "logical";
              turso.Hostname := "app1.example"; turso.Regions := ["gru"; "ams"; "fra"] |});
    vm_compute; reflexivity.
Defined.

(** The sample database is shown with its regions as [ams, fra, gru]. *)
Lemma show_regions_sample :
  sort_Strings ["gru"; "ams"; "fra"] = ["ams"; "fra"; "gru"]
  ∧ strings_Join ["ams"; "fra"; "gru"] ", " = "ams, fra, gru".
Proof. split; vm_compute; reflexivity. Qed.

(** ** [listCmd] *)

(** X25. [db list] succeeds exactly when the settings are readable and
    the listing succeeds; when it fails the settings, name cache
    included, stay as they were; when it succeeds it prints one table row
    per listed database, of every type and in listing order, beginning
    with the database's name and type, while the name cache receives the
    names of the primary databases only. *)
Theorem listCmd_outcome (w : World) (c : settings.Settings) :
  ((run (listCmd w) c).1 = Ok tt ↔
   ReadSettings_err w = None ∧ ∃ databases, Databases_List w = Value databases)
  ∧ ((run (listCmd w) c).1 ≠ Ok tt → config (run (listCmd w) c).2 = c)
  ∧ (∀ databases,
       ReadSettings_err w = None → Databases_List w = Value databases →
       ∃ rows,
         EvPrintTable ["name"; "type"; "regions"; "url"] rows
           ∈ trace (run (listCmd w) c).2
         ∧ length rows = length databases
         ∧ (∀ i d, nth_error databases i = Some d →
              ∃ regions url,
                nth_error rows i = Some [turso.Name d; turso.Type_ d; regions; url])
         ∧ settings.db_names_cache (config (run (listCmd w) c).2)
           = Some (extractDatabaseNames databases)).
Proof.
  mrun. split; [|split].
  - destruct (ReadSettings_err w) as [msg|].
    + split; [discriminate | by intros [? _]].
    + destruct (Databases_List w) as [databases|msg].
      * split; [|done]. intros _. split; [done | by eexists].
      * split; [discriminate | by intros [_ [? ?]]].
  - destruct (ReadSettings_err w) as [msg|]; [done|].
    by destruct (Databases_List w) as [databases|msg].
  - intros databases -> ->. eexists. split; [repeat constructor|].
    split; [apply length_map|]. split; [|done].
    intros i d Hd. fold (@nth_error turso.Database) in Hd. fold (@nth_error (list string)).
    rewrite nth_error_map, Hd. by eexists _, _.
Qed.

(** X25, on a sample listing of a primary and a logical database. *)
Lemma listCmd_outcome_witness :
  (run (listCmd
          (demo_world (Value ["ams"])
             (Value [demo_database "primary"; demo_database "logical"])
             (ProbeGetFailed "down") None None None (Error "unused")))
     (demo_settings None)).1 = Ok tt.
Proof.
  apply (proj1 (listCmd_outcome
           (demo_world (Value ["ams"])
              (Value [demo_database "primary"; demo_database "logical"])
              (ProbeGetFailed "down") None None None (Error "unused"))
           (demo_settings None))).
  split; [reflexivity | by eexists].
Defined.
